(** * amara: ARIMA grid search and console prompts

    Shallow embedding of
    - [amara/machinelearning/timeseries/model_wrappers.py] (class
      [ARIMAWrapper]) and
    - [amara/visuals/user_input.py] (classes [OptionsList], [YesNoPrompt],
      [FreeIntegerInput]),
    followed by the properties proved about them.

    Conventions.  Python [int] is [Z]; [str] is [string] (a sequence of
    bytes: the builtins below are modelled on ASCII, which is all the code
    relies on); a [list] is a [list]; a [dict] is a [gmap]; a raised
    exception is the [Raise] alternative of [result]. *)

From Stdlib Require Import ZArith String Ascii DecimalString List Bool Lia.
From stdpp Require Import gmap strings list.
Import ListNotations.

Local Open Scope Z_scope.
Local Open Scope string_scope.

(** ** Python builtins used by the two modules *)

(** Exceptions.  All of these derive from Python's [Exception], so an
    [except Exception] clause catches each of them.  What is raised by
    the steps modelled here is of that kind; an interrupt from outside
    ([KeyboardInterrupt], [SystemExit]) is not a result of any step and is
    not modelled. *)
Inductive exn : Type :=
| Exception
| ValueError
| EOFError
| AttributeError
| LibraryError (name : string).

Inductive result (A : Type) : Type :=
| Ok (a : A)
| Raise (e : exn).
Arguments Ok {A} a.
Arguments Raise {A} e.

#[export] Instance result_bind : MBind result := fun A B f m =>
  match m with
  | Ok a => f a
  | Raise e => Raise e
  end.
#[export] Instance result_fmap : FMap result := fun A B f m =>
  match m with
  | Ok a => Ok (f a)
  | Raise e => Raise e
  end.

(** Objects, as far as [parse_order] needs them: Python tells a list of
    strings from a tuple of integers. *)
Inductive pyobj : Type :=
| PyListOfStr (items : list string)
| PyTupleOfInt (items : list Z).

Definition TAB : string := String (ascii_of_nat 9) "".
Definition NL : string := String (ascii_of_nat 10) "".
Definition QUOTE : string := String (ascii_of_nat 34) "".

(** [str(z)] for an integer: decimal digits, ["-"] in front when negative. *)
Definition str (z : Z) : string := NilEmpty.string_of_int (Z.to_int z).

(** [str(t)] for a 3-tuple of integers. *)
Definition str_tuple3 (t : Z * Z * Z) : string :=
  let '(p, d, q) := t in
  "(" ++ str p ++ ", " ++ str d ++ ", " ++ str q ++ ")".

(** [s * n] *)
Fixpoint str_mul (s : string) (n : nat) : string :=
  match n with
  | O => ""
  | S k => s ++ str_mul s k
  end.

(** [c.isspace()] on ASCII: tab, LF, VT, FF, CR, FS, GS, RS, US, space. *)
Definition isspace (c : ascii) : bool :=
  let n := nat_of_ascii c in
  ((9 <=? n) && (n <=? 13) || (28 <=? n) && (n <=? 32))%nat.

Fixpoint lstrip (s : string) : string :=
  match s with
  | "" => ""
  | String c s' => if isspace c then lstrip s' else s
  end.

Fixpoint rstrip (s : string) : string :=
  match s with
  | "" => ""
  | String c s' =>
      match rstrip s' with
      | "" => if isspace c then "" else String c ""
      | r => String c r
      end
  end.

Definition strip (s : string) : string := rstrip (lstrip s).

(** [s.endswith(suffix)]: some tail of [s] is [suffix]. *)
Fixpoint endswith (s suffix : string) : bool :=
  (s =? suffix)%string ||
  match s with
  | "" => false
  | String _ s' => endswith s' suffix
  end.

Definition lower_char (c : ascii) : ascii :=
  let n := nat_of_ascii c in
  if ((65 <=? n) && (n <=? 90))%nat then ascii_of_nat (n + 32) else c.

(** [s.lower()] *)
Fixpoint lower (s : string) : string :=
  match s with
  | "" => ""
  | String c s' => String (lower_char c) (lower s')
  end.

(** [s[start:stop]] with Python's treatment of negative and out-of-range
    indices. *)
Definition slice_index (len i : Z) : nat :=
  Z.to_nat (Z.min len (Z.max 0 (if (i <? 0)%Z then i + len else i))).

Definition slice (s : string) (start stop : Z) : string :=
  let len := Z.of_nat (String.length s) in
  let a := slice_index len start in
  let b := slice_index len stop in
  substring a (b - a) s.

(** [s.split(sep)] for a non-empty [sep]: left to right, occurrences do
    not overlap.  [skip] counts the characters of the separator still to
    be passed over, [cur] is the piece read so far, reversed. *)
Fixpoint split_go (sep : string) (skip : nat) (cur : list ascii) (s : string)
  : list string :=
  match s with
  | "" => [string_of_list_ascii (rev cur)]
  | String c s' =>
      match skip with
      | S k => split_go sep k cur s'
      | O =>
          if String.prefix sep s
          then string_of_list_ascii (rev cur)
               :: split_go sep (String.length sep - 1) [] s'
          else split_go sep 0 (c :: cur) s'
      end
  end.

Definition split (s sep : string) : list string := split_go sep 0 [] s.

(** [int(s)] for a string of ASCII characters: white space around (for
    [int] that is tab, LF, VT, FF, CR and space only; the separators 28 to
    31, which [strip] removes, are refused here), an optional sign, then
    decimal digits, single underscores allowed between digits;
    [ValueError] otherwise, and also when there are more digits than
    [int_max_str_digits], 4300 unless the interpreter is told otherwise. *)
Definition Py_ISSPACE (c : ascii) : bool :=
  let n := nat_of_ascii c in
  ((9 <=? n) && (n <=? 13) || (n =? 32))%nat.

Fixpoint int_lstrip (s : string) : string :=
  match s with
  | "" => ""
  | String c s' => if Py_ISSPACE c then int_lstrip s' else s
  end.

Fixpoint int_rstrip (s : string) : string :=
  match s with
  | "" => ""
  | String c s' =>
      match int_rstrip s' with
      | "" => if Py_ISSPACE c then "" else String c ""
      | r => String c r
      end
  end.

Definition int_max_str_digits : nat := 4300.

Definition digit_of (c : ascii) : option Z :=
  let n := nat_of_ascii c in
  if ((48 <=? n) && (n <=? 57))%nat then Some (Z.of_nat n - 48) else None.

Fixpoint int_digits (s : string) (acc : Z) (after_digit : bool) : option Z :=
  match s with
  | "" => if after_digit then Some acc else None
  | String c s' =>
      if Ascii.eqb c "_"
      then if after_digit then int_digits s' acc false else None
      else match digit_of c with
           | Some k => int_digits s' (10 * acc + k) true
           | None => None
           end
  end.

Fixpoint count_digits (s : string) : nat :=
  match s with
  | "" => 0
  | String c s' =>
      match digit_of c with
      | Some _ => S (count_digits s')
      | None => count_digits s'
      end
  end.

Definition int (s : string) : result Z :=
  let body := int_rstrip (int_lstrip s) in
  let signed :=
    match body with
    | String "-" r => Z.opp <$> int_digits r 0 false
    | String "+" r => int_digits r 0 false
    | _ => int_digits body 0 false
    end in
  match signed with
  | Some z =>
      if (int_max_str_digits <? count_digits body)%nat then Raise ValueError else Ok z
  | None => Raise ValueError
  end.

(** The console: the lines still to be read from standard input and the
    texts written to standard output so far. *)
Record console : Type := Console { stdin : list string; stdout : list string }.

(** [print(text)] *)
Definition print (text : string) (out : list string) : list string :=
  (out ++ [(text ++ NL)%string])%list.

(** [input(text)] writes [text]; it then returns the next line, or raises
    [EOFError] when there is none.  The loops below recurse on the lines
    that are left, so they spell this out: [echo] is the writing half. *)
Definition echo (text : string) (out : list string) : list string :=
  (out ++ [text])%list.

Definition input (text : string) (c : console) : result string * console :=
  match stdin c with
  | [] => (Raise EOFError, Console [] (echo text (stdout c)))
  | line :: rest => (Ok line, Console rest (echo text (stdout c)))
  end.

(** [l.index(x)] *)
Fixpoint index (l : list Z) (x : Z) : result nat :=
  match l with
  | [] => Raise ValueError
  | y :: l' => if (y =? x)%Z then Ok 0%nat else S <$> index l' x
  end.

(** A computation over a mutable state [S] that may raise: the state
    reached when an exception is raised is kept, as in Python. *)
Definition M (S A : Type) : Type := S -> result A * S.

Definition ret {S A} (a : A) : M S A := fun st => (Ok a, st).
Definition raise {S A} (e : exn) : M S A := fun st => (Raise e, st).
Definition bind {S A B} (m : M S A) (k : A -> M S B) : M S B := fun st =>
  match m st with
  | (Ok a, st') => k a st'
  | (Raise e, st') => (Raise e, st')
  end.
(** a call that does not touch the state *)
Definition call {S A} (r : result A) : M S A := fun st => (r, st).
Definition modify {S} (f : S -> S) : M S unit := fun st => (Ok tt, f st).
(** [try: body / except Exception: handler] *)
Definition try_M {S A} (body : M S A) (handler : exn -> M S A) : M S A := fun st =>
  match body st with
  | (Ok a, st') => (Ok a, st')
  | (Raise e, st') => handler e st'
  end.

Declare Scope py_scope.
Delimit Scope py_scope with py.
Notation "x <- m ;; k" := (bind m (fun x => k))
  (at level 100, m at next level, right associativity) : py_scope.
Notation "m ;; k" := (bind m (fun _ => k))
  (at level 100, right associativity) : py_scope.

(** [for x in l: body] *)
Fixpoint for_each {S A} (l : list A) (body : A -> M S unit) : M S unit :=
  match l with
  | [] => ret tt
  | x :: l' => (body x ;; for_each l' body)%py
  end.

(** ** model_wrappers.py *)

(** What the wrapper uses of statsmodels and pandas.  A [Series] is the
    list of its values, [pd.concat] of two series is their concatenation;
    [num] is the type of those values, with Python's [<] and [>] on it
    (no order law is assumed, so a NaN may compare false both ways).  The
    data, the frequency, the estimation method and the two [enforce_]
    flags are fixed by the wrapper; every call may raise. *)
Class Statsmodels : Type := {
  num : Type;
  num_lt : num -> num -> bool;
  num_gt : num -> num -> bool;
  DataFrame : Type;
  df_len : DataFrame -> nat;
  ARIMA : Type;
  ARIMAResults : Type;
  PredictionResults : Type;
  score : Type;
  ARIMA_new : list num -> DataFrame -> Z * Z * Z -> result ARIMA;
  ARIMA_fit : ARIMA -> result ARIMAResults;
  predict : ARIMAResults -> result (list num);
  get_forecast : ARIMAResults -> nat -> DataFrame -> result PredictionResults;
  predicted_mean : PredictionResults -> list num
}.

Module ARIMAWrapper.

Section Wrapper.
Context `{Statsmodels}.

Record t : Type := {
  __train_target : list num;
  __train_exog : DataFrame;
  __forecast : DataFrame;
  __forecast_exog : DataFrame
}.

(** A metric: what calling it on [y_true] and [y_pred] gives, and its
    [__name__].  A plain function has one; a [functools.partial] or an
    object with [__call__] has none, and reading it raises. *)
Record metric : Type := {
  metric_call : list num -> list num -> result score;
  __name__ : option string
}.

(** [metric.__name__] *)
Definition getattr_name (m : metric) : result string :=
  match __name__ m with
  | Some name => Ok name
  | None => Raise AttributeError
  end.

(** [{i: metric.__name__ for i, metric in enumerate(metrics, start=1)}]:
    the names in the order of the metrics; the first metric without one
    raises. *)
Fixpoint metric_names (metrics : list metric) : result (list string) :=
  match metrics with
  | [] => Ok []
  | m :: rest =>
      match getattr_name m with
      | Ok name =>
          match metric_names rest with
          | Ok names => Ok (name :: names)
          | Raise e => Raise e
          end
      | Raise e => Raise e
      end
  end.

(** A row of [orders]: the order tuple, then one score per metric. *)
Definition row : Type := (Z * Z * Z) * list score.

(** The variables of [exhaustive_search] that outlive one iteration.

    Modelled from the spec: [SingleProgressBar], of [amara.visuals.progress],
    is not among the sources at hand; the spec has it as a console progress
    indicator, advanced once per grid combination.  So [tracker] is the
    number of calls of [tracker.update()] so far, and a call only counts. *)
Record search_state : Type := {
  passes : nat;
  failures : nat;
  orders : list row;
  models : gmap (Z * Z * Z) ARIMAResults;
  tracker : nat
}.

Definition incr_passes (st : search_state) : search_state :=
  {| passes := S (passes st); failures := failures st; orders := orders st;
     models := models st; tracker := tracker st |}.
Definition incr_failures (st : search_state) : search_state :=
  {| passes := passes st; failures := S (failures st); orders := orders st;
     models := models st; tracker := tracker st |}.
Definition orders_append (r : row) (st : search_state) : search_state :=
  {| passes := passes st; failures := failures st; orders := (orders st ++ [r])%list;
     models := models st; tracker := tracker st |}.
Definition models_setitem (o : Z * Z * Z) (m : ARIMAResults) (st : search_state)
  : search_state :=
  {| passes := passes st; failures := failures st; orders := orders st;
     models := <[o := m]> (models st); tracker := tracker st |}.
Definition tracker_update (st : search_state) : search_state :=
  {| passes := passes st; failures := failures st; orders := orders st;
     models := models st; tracker := S (tracker st) |}.

(** [lambda x: True if x < bounds[0] or x > bounds[1] else False] *)
Definition out_of_bounds (bounds : num * num) (x : num) : bool :=
  if num_lt x (fst bounds) || num_gt x (snd bounds) then true else false.

(** [for metric in metrics: model_results.append(metric(train, insample))];
    [model_results] is local to the iteration. *)
Fixpoint append_metrics (metrics : list metric) (y_true y_pred : list num)
    (model_results : list score) : result (list score) :=
  match metrics with
  | [] => Ok model_results
  | metric :: rest =>
      match metric_call metric y_true y_pred with
      | Ok v => append_metrics rest y_true y_pred (model_results ++ [v])%list
      | Raise e => Raise e
      end
  end.

(** The body of the innermost loop. *)
Definition iteration (self : t) (metrics : list metric)
    (bounds : option (num * num)) (return_models : bool) (p d q : Z)
  : M search_state unit :=
  (try_M
     (model <- call (ARIMA_new (__train_target self) (__train_exog self) (p, d, q)) ;;
      model_fit <- call (ARIMA_fit model) ;;
      insample_pred <- call (predict model_fit) ;;
      outsample_fc <- call (get_forecast model_fit (df_len (__forecast self))
                                         (__forecast_exog self)) ;;
      let full_pred := (insample_pred ++ predicted_mean outsample_fc)%list in
      match bounds with
      | Some b => if existsb (out_of_bounds b) full_pred then raise Exception else ret tt
      | None => ret tt
      end ;;
      model_results <- call (append_metrics metrics (__train_target self) insample_pred []) ;;
      (if return_models then modify (models_setitem (p, d, q) model_fit) else ret tt) ;;
      modify (orders_append ((p, d, q), model_results)) ;;
      modify incr_passes)
     (fun _ => modify incr_failures) ;;
   modify tracker_update)%py.

(** What [exhaustive_search] returns: the result table, that is the
    rows of [orders] under the column labels ['Order'] and the names of
    the metrics (a table without rows has no columns to label), and the
    dictionary of fitted models when [return_models] is set. *)
Record search_output : Type := {
  columns : list string;
  model_results : list row;
  returned_models : option (gmap (Z * Z * Z) ARIMAResults)
}.

(** What a call has shown on the console by the time it returns or
    raises: the number of steps announced to the progress bar, the number
    of times the bar was advanced, and the passes and failures of the
    status line, once that line is printed. *)
Record search_shown : Type := {
  steps_count : nat;
  tracker_updates : nat;
  status_line : option (nat * nat)
}.

Definition search_init : search_state :=
  {| passes := 0; failures := 0; orders := []; models := ∅; tracker := 0 |}.

(** [pd.DataFrame(orders).rename(columns={0: 'Order'} | {...})] *)
Definition labelled (orders : list row) (names : list string) : list string :=
  match orders with
  | [] => []
  | _ :: _ => "Order" :: names
  end.

(** The status line is printed after the loops and before the names of
    the metrics are read for the column labels, outside any [try]. *)
Definition exhaustive_search (self : t) (p_values d_values q_values : list Z)
    (metrics : list metric) (bounds : option (num * num)) (return_models : bool)
  : result search_output * search_shown :=
  let steps := (length p_values * length d_values * length q_values)%nat in
  let loops :=
    for_each p_values (fun p =>
      for_each d_values (fun d =>
        for_each q_values (fun q =>
          iteration self metrics bounds return_models p d q))) in
  match loops search_init with
  | (Ok _, st) =>
      let shown :=
        {| steps_count := steps; tracker_updates := tracker st;
           status_line := Some (passes st, failures st) |} in
      match metric_names metrics with
      | Ok names =>
          (Ok {| columns := labelled (orders st) names;
                 model_results := orders st;
                 returned_models := if return_models then Some (models st) else None |},
           shown)
      | Raise e => (Raise e, shown)
      end
  | (Raise e, st) =>
      (Raise e,
       {| steps_count := steps; tracker_updates := tracker st; status_line := None |})
  end.

(** What [forecast_with] may return. *)
Inductive forecast_value : Type :=
| Insample (s : list num)
| Outsample (fc : PredictionResults)
| Full (s : list num)
| PyNone.

Definition forecast_with (self : t) (model_fit : ARIMAResults) (forecast : string)
  : result forecast_value :=
  insample_pred ← predict model_fit;
  outsample_fc ← get_forecast model_fit (df_len (__forecast self)) (__forecast_exog self);
  let full_pred := (insample_pred ++ predicted_mean outsample_fc)%list in
  if (forecast =? "insample")%string then Ok (Insample insample_pred)
  else if (forecast =? "outsample")%string then Ok (Outsample outsample_fc)
  else if (forecast =? "full")%string then Ok (Full full_pred)
  else Ok PyNone.

(** What [reconstruct] returns: the model as built, or as fitted. *)
Inductive reconstructed : Type :=
| Unfitted (model : ARIMA)
| Fitted (model_fit : ARIMAResults).

Definition reconstruct (self : t) (order : Z * Z * Z) (fit : bool)
  : result reconstructed :=
  model ← ARIMA_new (__train_target self) (__train_exog self) order;
  if fit
  then model_fit ← ARIMA_fit model; Ok (Fitted model_fit)
  else Ok (Unfitted model).

End Wrapper.

(** [parse_order]: the slice drops the first and the last character, the
    split returns a list of strings. *)
Definition parse_order (order : string) : pyobj :=
  PyListOfStr (split (slice order 1 (-1)) ", ").

End ARIMAWrapper.

(** ** user_input.py *)

Module OptionsList.

Record t : Type := {
  _prompt : string;
  __options : list string;
  __indent : string
}.

Definition __init__ (prompt : string) (options : list string) (indent : nat) : t :=
  {| _prompt := prompt; __options := options; __indent := str_mul TAB indent |}.

(** [for i, option in enumerate(options): print(...)], from index [i] on *)
Fixpoint print_options (indent : string) (i : nat) (options : list string)
    (out : list string) : list string :=
  match options with
  | [] => out
  | option :: rest =>
      print_options indent (S i) rest
        (print (indent ++ TAB ++ "[" ++ str (Z.of_nat i + 1) ++ "] " ++ option) out)
  end.

(** The text of the [except] branch; [choice] is the variable as it
    stands there: the integer when [int] succeeded, the line otherwise. *)
Definition complaint (self : t) (choice : string) : string :=
  __indent self ++ "Expecting a whole number between 1 and "
  ++ str (Z.of_nat (length (__options self))) ++ ", got " ++ QUOTE ++ choice
  ++ QUOTE ++ " instead." ++ NL.

(** What one pass of the loop writes before it reads. *)
Definition show (self : t) (out : list string) : list string :=
  echo (__indent self ++ ">>> ")
    (print_options (__indent self) 0 (__options self)
       (print (__indent self ++ _prompt self) out)).

(** The [while True] loop, by recursion on the lines left to read. *)
Fixpoint loop (self : t) (lines : list string) (out : list string)
  : result Z * console :=
  match lines with
  | [] => (Raise EOFError, Console [] (show self out))
  | line :: rest =>
      let out := show self out in
      match int line with
      | Ok choice =>
          if (choice <? 1)%Z || (choice >? Z.of_nat (length (__options self)))%Z
          then loop self rest (print (complaint self (str choice)) out)
          else (Ok choice, Console rest out)
      | Raise _ => loop self rest (print (complaint self line) out)
      end
  end.

Definition prompt (self : t) (c : console) : result Z * console :=
  loop self (stdin c) (stdout c).

End OptionsList.

Module YesNoPrompt.

Record t : Type := {
  _prompt : string;
  __indent : string
}.

Definition __init__ (prompt : string) (indent : nat) : t :=
  {| _prompt := if negb (endswith (rstrip prompt) "(y/n):")
                then prompt ++ "(y/n): "
                else prompt;
     __indent := str_mul TAB indent |}.

Definition complaint (self : t) (choice : string) : string :=
  __indent self ++ "Expecting " ++ QUOTE ++ "y" ++ QUOTE ++ " for yes or "
  ++ QUOTE ++ "n" ++ QUOTE ++ " for no, got " ++ QUOTE ++ choice ++ QUOTE
  ++ " instead." ++ NL.

Fixpoint loop (self : t) (lines : list string) (out : list string)
  : result bool * console :=
  match lines with
  | [] => (Raise EOFError, Console [] (echo (__indent self ++ _prompt self) out))
  | line :: rest =>
      let out := echo (__indent self ++ _prompt self) out in
      let choice := lower line in
      if (choice =? "y")%string || (choice =? "n")%string
      then (Ok (choice =? "y")%string, Console rest out)
      else loop self rest (print (complaint self choice) out)
  end.

Definition prompt (self : t) (c : console) : result bool * console :=
  loop self (stdin c) (stdout c).

End YesNoPrompt.

Module FreeIntegerInput.

Record t : Type := {
  _prompt : string;
  __indent : string;
  __bounds : Z * Z;
  __unique : bool
}.

Definition __init__ (prompt : string) (bounds : Z * Z) (unique : bool) (indent : nat) : t :=
  {| _prompt := prompt; __indent := str_mul TAB indent;
     __bounds := bounds; __unique := unique |}.

Definition complaint (self : t) (choice : string) : string :=
  __indent self ++ "Expecting a whole number between " ++ str (fst (__bounds self))
  ++ " and " ++ str (snd (__bounds self)) ++ ", got " ++ QUOTE ++ choice ++ QUOTE
  ++ " instead.".

Definition repeated (self : t) (choice : Z) (position : nat) : string :=
  __indent self ++ QUOTE ++ str choice ++ QUOTE ++ " is a repeated choice at choice "
  ++ str (Z.of_nat position + 1) ++ ", expecting unique inputs.".

Fixpoint loop (self : t) (choices : list Z) (lines : list string) (out : list string)
  : result (list Z) * console :=
  match lines with
  | [] => (Raise EOFError, Console [] (echo (__indent self ++ ">>> ") out))
  | line :: rest =>
      let out := echo (__indent self ++ ">>> ") out in
      if (String.length line =? 0)%nat then (Ok choices, Console rest out)
      else
        match int line with
        | Ok choice =>
            if (choice <? fst (__bounds self))%Z || (choice >? snd (__bounds self))%Z
            then loop self choices rest (print (complaint self (str choice)) out)
            else if __unique self && bool_decide (choice ∈ choices)
            then match index choices choice with
                 | Ok i => loop self choices rest (print (repeated self choice i) out)
                 | Raise _ => loop self choices rest (print (complaint self (str choice)) out)
                 end
            else loop self (choices ++ [choice])%list rest out
        | Raise _ => loop self choices rest (print (complaint self line) out)
        end
  end.

Definition prompt (self : t) (c : console) : result (list Z) * console :=
  loop self [] (stdin c) (print (_prompt self) (stdout c)).

End FreeIntegerInput.

(** ** Vocabulary of the statements

    None of this is code of the repository: these definitions name what
    the claims talk about (the grid in iteration order, the outcome of one
    candidate, the steps at which it may raise). *)

Section SearchVocabulary.
Context `{Statsmodels}.
Import ARIMAWrapper.

(** The combinations in the order the three nested loops visit them. *)
Definition grid (p_values d_values q_values : list Z) : list (Z * Z * Z) :=
  p ← p_values; d ← d_values; q ← q_values; [(p, d, q)].

(** The concatenated in-sample and out-of-sample prediction of a
    candidate, when it can be computed. *)
Definition full_prediction (self : t) (o : Z * Z * Z) : result (list num) :=
  model ← ARIMA_new (__train_target self) (__train_exog self) o;
  model_fit ← ARIMA_fit model;
  insample_pred ← predict model_fit;
  outsample_fc ← get_forecast model_fit (df_len (__forecast self)) (__forecast_exog self);
  Ok (insample_pred ++ predicted_mean outsample_fc)%list.

(** The outcome of the [try] block for one candidate, read off the
    external calls alone: its row and fitted model, or the exception. *)
Definition attempt (self : t) (metrics : list metric) (bounds : option (num * num))
    (o : Z * Z * Z) : result (row * ARIMAResults) :=
  model ← ARIMA_new (__train_target self) (__train_exog self) o;
  model_fit ← ARIMA_fit model;
  insample_pred ← predict model_fit;
  outsample_fc ← get_forecast model_fit (df_len (__forecast self)) (__forecast_exog self);
  if match bounds with
     | Some b => existsb (out_of_bounds b) (insample_pred ++ predicted_mean outsample_fc)
     | None => false
     end
  then Raise Exception
  else
    model_results ← append_metrics metrics (__train_target self) insample_pred [];
    Ok ((o, model_results), model_fit).

Definition is_ok {A} (r : result A) : bool :=
  match r with
  | Ok _ => true
  | Raise _ => false
  end.

Definition passing (self : t) (metrics : list metric) (bounds : option (num * num))
    (o : Z * Z * Z) : bool :=
  is_ok (attempt self metrics bounds o).

(** The steps of the [try] block at which a candidate may raise. *)
Inductive raises_at (self : t) (metrics : list metric) (bounds : option (num * num))
    (o : Z * Z * Z) : Prop :=
| at_construction e :
    ARIMA_new (__train_target self) (__train_exog self) o = Raise e ->
    raises_at self metrics bounds o
| at_fit model e :
    ARIMA_new (__train_target self) (__train_exog self) o = Ok model ->
    ARIMA_fit model = Raise e ->
    raises_at self metrics bounds o
| at_predict model model_fit e :
    ARIMA_new (__train_target self) (__train_exog self) o = Ok model ->
    ARIMA_fit model = Ok model_fit ->
    predict model_fit = Raise e ->
    raises_at self metrics bounds o
| at_forecast model model_fit insample_pred e :
    ARIMA_new (__train_target self) (__train_exog self) o = Ok model ->
    ARIMA_fit model = Ok model_fit ->
    predict model_fit = Ok insample_pred ->
    get_forecast model_fit (df_len (__forecast self)) (__forecast_exog self) = Raise e ->
    raises_at self metrics bounds o
| at_bounds_check full_pred lo hi x :
    full_prediction self o = Ok full_pred ->
    bounds = Some (lo, hi) ->
    In x full_pred ->
    num_lt x lo = true \/ num_gt x hi = true ->
    raises_at self metrics bounds o
| at_metric model model_fit insample_pred e :
    ARIMA_new (__train_target self) (__train_exog self) o = Ok model ->
    ARIMA_fit model = Ok model_fit ->
    predict model_fit = Ok insample_pred ->
    append_metrics metrics (__train_target self) insample_pred [] = Raise e ->
    raises_at self metrics bounds o.

(** The effect of one iteration on the variables of the search, given the
    outcome of its [try] block. *)
Definition record (return_models : bool) (outcome : result (row * ARIMAResults))
    (st : search_state) : search_state :=
  match outcome with
  | Ok (r, model_fit) =>
      tracker_update
        (incr_passes
           (orders_append r
              (if return_models then models_setitem (fst r) model_fit st else st)))
  | Raise _ => tracker_update (incr_failures st)
  end.

(** A metric whose [__name__] can be read. *)
Definition named (m : metric) : Prop := is_Some (__name__ m).

(** The search over a list of combinations, as a fold of [record]. *)
Definition run (self : t) (metrics : list metric) (bounds : option (num * num))
    (return_models : bool) (l : list (Z * Z * Z)) (st : search_state) : search_state :=
  fold_left (fun st o => record return_models (attempt self metrics bounds o) st) l st.

(** The row a candidate contributes to the table, if any. *)
Definition row_of (self : t) (metrics : list metric) (bounds : option (num * num))
    (o : Z * Z * Z) : option row :=
  match attempt self metrics bounds o with
  | Ok (r, _) => Some r
  | Raise _ => None
  end.

End SearchVocabulary.

(** [c not in s] *)
Fixpoint free_of (c : ascii) (s : string) : bool :=
  match s with
  | "" => true
  | String c' s' => negb (Ascii.eqb c' c) && free_of c s'
  end.

(** A line the multiple-choice prompt accepts, with the choice it stands
    for: it parses as an integer between 1 and the number of options. *)
Definition option_choice (self : OptionsList.t) (line : string) (k : Z) : Prop :=
  int line = Ok k /\ (1 <= k <= Z.of_nat (length (OptionsList.__options self)))%Z.


(** The same as a function: the choices after one more line. *)
Definition list_choose (self : FreeIntegerInput.t) (choices : list Z) (line : string)
  : list Z :=
  match int line with
  | Ok k =>
      if (fst (FreeIntegerInput.__bounds self) <=? k)%Z
         && (k <=? snd (FreeIntegerInput.__bounds self))%Z
         && negb (FreeIntegerInput.__unique self && bool_decide (k ∈ choices))
      then (choices ++ [k])%list
      else choices
  | Raise _ => choices
  end.

(** What the integer list prompt is to return on the lines given: the
    choices accepted up to the first empty line, if there is one. *)
Fixpoint collected (self : FreeIntegerInput.t) (choices : list Z) (lines : list string)
  : option (list Z) :=
  match lines with
  | [] => None
  | line :: rest =>
      if (line =? "")%string then Some choices
      else collected self (list_choose self choices line) rest
  end.

(** [sep.join(pieces)] *)
Fixpoint join (sep : string) (pieces : list string) : string :=
  match pieces with
  | [] => ""
  | piece :: rest =>
      match rest with
      | [] => piece
      | _ :: _ => piece ++ sep ++ join sep rest
      end
  end.




(** An integer within the bounds of the integer list prompt, both
    included. *)
Definition within_bounds (self : FreeIntegerInput.t) (k : Z) : Prop :=
  (fst (FreeIntegerInput.__bounds self) <= k <= snd (FreeIntegerInput.__bounds self))%Z.

(** The line the multiple-choice prompt writes for option number [i],
    counted from 0. *)
Definition option_line (self : OptionsList.t) (i : nat) (option : string) : string :=
  OptionsList.__indent self ++ TAB ++ "[" ++ str (Z.of_nat i + 1) ++ "] " ++ option ++ NL.

(** A small stand-in for the library, to run the search on: construction
    refuses negative orders, fitting fails for [d > 1], the forecast fails
    for [q = 7]; the in-sample prediction of [(p, d, q)] is [[p; d]] and its
    forecast is [10 * q], once per row of the forecast data. *)
Definition toy : Statsmodels := {|
  num := Z;
  num_lt := Z.ltb;
  num_gt := Z.gtb;
  DataFrame := nat;
  df_len := fun n => n;
  ARIMA := Z * Z * Z;
  ARIMAResults := Z * Z * Z;
  PredictionResults := list Z;
  score := Z;
  ARIMA_new := fun _ _ '(p, d, q) =>
    if (p <? 0)%Z || (d <? 0)%Z || (q <? 0)%Z then Raise ValueError else Ok (p, d, q);
  ARIMA_fit := fun '(p, d, q) =>
    if (d >? 1)%Z then Raise (LibraryError "LinAlgError") else Ok (p, d, q);
  predict := fun '(p, d, q) => Ok [p; d];
  get_forecast := fun '(p, d, q) n _ =>
    if (q =? 7)%Z then Raise ValueError else Ok (repeat (10 * q)%Z n);
  predicted_mean := fun fc => fc
|}.

Definition toy_self : @ARIMAWrapper.t toy :=
  @ARIMAWrapper.Build_t toy [1; 2; 3]%Z 3%nat 2%nat 2%nat.

(** a metric, a function named [total]: the sum of the predicted values *)
Definition toy_metric : @ARIMAWrapper.metric toy :=
  @ARIMAWrapper.Build_metric toy
    (fun _ y_pred => Ok (fold_right Z.add 0%Z y_pred)) (Some "total").

(** the same wrapped so that it has no [__name__] *)
Definition toy_partial : @ARIMAWrapper.metric toy :=
  @ARIMAWrapper.Build_metric toy
    (fun _ y_pred => Ok (fold_right Z.add 0%Z y_pred)) None.

(** * Properties *)

Example parse_order_102 :
  ARIMAWrapper.parse_order "(1, 0, 2)" = PyListOfStr ["1"; "0"; "2"].
Proof. reflexivity. Qed.

Example split_ex : split "a, , b, " ", " = ["a"; ""; "b"; ""].
Proof. reflexivity. Qed.

Example int_ex :
  (int " 12 ", int "-0_7", int "1__0", int "+", int "", int "2.0", int "5",
   int "1_000", int "--5", int "3 4")
  = (Ok 12, Ok (-7), Raise ValueError, Raise ValueError, Raise ValueError,
     Raise ValueError, Ok 5, Ok 1000, Raise ValueError, Raise ValueError).
Proof. reflexivity. Qed.

Example str_ex : str_tuple3 (1, 0, -20) = "(1, 0, -20)".
Proof. reflexivity. Qed.

Example slice_ex : (slice "abcd" 1 (-1), slice "a" 1 (-1), slice "" 1 (-1), slice "abc" (-2) 10) = ("bc", "", "", "bc").
Proof. reflexivity. Qed.

Example strip_ex : (rstrip "a b  ", strip "  a b ", rstrip "  ", endswith "ok (y/n):" "(y/n):", endswith "ok" "(y/n):", lower "YeS") = ("a b", "a b", "", true, false, "yes").
Proof. reflexivity. Qed.

Example options_ex :
  fst (OptionsList.prompt (OptionsList.__init__ "Pick" ["a"; "b"; "c"; "d"] 0)
         (Console ["0"; "5"; "2"] []))
  = Ok 2.
Proof. reflexivity. Qed.

Example yesno_ex :
  YesNoPrompt.prompt (YesNoPrompt.__init__ "Go on? " 0) (Console ["maybe"; "Y"; "n"] [])
  = (Ok true, Console ["n"] ["Go on? (y/n): "; "Expecting " ++ QUOTE ++ "y" ++ QUOTE ++ " for yes or "
  ++ QUOTE ++ "n" ++ QUOTE ++ " for no, got " ++ QUOTE ++ "maybe" ++ QUOTE
  ++ " instead." ++ NL ++ NL; "Go on? (y/n): "]).
Proof. reflexivity. Qed.

Example free_ex :
  fst (FreeIntegerInput.prompt (FreeIntegerInput.__init__ "Numbers" (1, 10) true 0)
         (Console ["3"; "3"; "7"; ""] []))
  = Ok [3; 7].
Proof. reflexivity. Qed.

Example search_ex :
  @ARIMAWrapper.exhaustive_search toy toy_self [0; 1] [0; 2] [1; 7; 3] [toy_metric]
    (Some (0, 20)%Z) true
  = (Ok (@ARIMAWrapper.Build_search_output toy
           ["Order"; "total"]
           [((0, 0, 1), [0]); ((1, 0, 1), [1])]%Z
           (Some (<[(1, 0, 1)%Z := (1, 0, 1)%Z]> (<[(0, 0, 1)%Z := (0, 0, 1)%Z]> ∅)))),
     ARIMAWrapper.Build_search_shown 12 12 (Some (2, 10)%nat)).
Proof. vm_compute. reflexivity. Qed.

Example search_partial_ex :
  @ARIMAWrapper.exhaustive_search toy toy_self [0; 1] [0; 2] [1; 7; 3]
    [toy_metric; toy_partial] (Some (0, 20)%Z) true
  = (Raise AttributeError, ARIMAWrapper.Build_search_shown 12 12 (Some (2, 10)%nat)).
Proof. vm_compute. reflexivity. Qed.

Example int_space_ex :
  (int (String (ascii_of_nat 28) "2"), int (String (ascii_of_nat 9) "2" ++ NL),
   int ("2" ++ String (ascii_of_nat 31) ""))
  = (Raise ValueError, Ok 2, Raise ValueError).
Proof. reflexivity. Qed.

Example int_limit_ex :
  (is_ok (int (str_mul "1" 4300)), is_ok (int (str_mul "1" 4301)),
   is_ok (int ("-" ++ str_mul "0" 4301)))
  = (true, false, false).
Proof. vm_compute. reflexivity. Qed.

(** ** The grid search *)

Section SearchFacts.
Context `{Statsmodels}.
Import ARIMAWrapper.
Variables (self : t) (metrics : list metric) (bounds : option (num * num)).

(** One iteration never raises, and its effect on the variables is
    [record] of the candidate's outcome. *)
Lemma iteration_record return_models p d q st :
  iteration self metrics bounds return_models p d q st
  = (Ok tt, record return_models (attempt self metrics bounds (p, d, q)) st).
Proof.
  unfold iteration, attempt, try_M, bind, call, modify, raise, ret, record.
  unfold mbind, result_bind.
  destruct (ARIMA_new _ _ _) as [model|e]; [|reflexivity].
  destruct (ARIMA_fit model) as [model_fit|e]; [|reflexivity].
  destruct (predict model_fit) as [insample_pred|e]; [|reflexivity].
  destruct (get_forecast _ _ _) as [outsample_fc|e]; [|reflexivity].
  destruct bounds as [b|]; simpl.
  - destruct (existsb _ _); [reflexivity|].
    destruct (append_metrics _ _ _ _); [|reflexivity].
    destruct return_models; reflexivity.
  - destruct (append_metrics _ _ _ _); [|reflexivity].
    destruct return_models; reflexivity.
Qed.

Lemma for_each_fold {S A} (f : A -> S -> S) (body : A -> M S unit) l st :
  (forall x st', body x st' = (Ok tt, f x st')) ->
  for_each l body st = (Ok tt, fold_left (fun s x => f x s) l st).
Proof.
  intros Hbody. revert st.
  induction l as [|x l IH]; intros st; simpl; [reflexivity|].
  unfold bind. rewrite Hbody. apply IH.
Qed.

Lemma fold_left_bind {S A B} (f : S -> B -> S) (g : A -> list B) (l : list A) st :
  fold_left f (l ≫= g) st = fold_left (fun s x => fold_left f (g x) s) l st.
Proof.
  revert st. induction l as [|x l IH]; intros st; simpl; [reflexivity|].
  rewrite fold_left_app. apply IH.
Qed.

(** The three nested loops are one pass over [grid]. *)
Lemma loops_run return_models p_values d_values q_values st :
  for_each p_values (fun p =>
    for_each d_values (fun d =>
      for_each q_values (fun q =>
        iteration self metrics bounds return_models p d q))) st
  = (Ok tt, run self metrics bounds return_models (grid p_values d_values q_values) st).
Proof.
  unfold run, grid.
  rewrite fold_left_bind.
  apply (for_each_fold (fun p s => fold_left _ _ s)). intros p st1.
  rewrite fold_left_bind.
  apply (for_each_fold (fun d s => fold_left _ _ s)). intros d st2.
  rewrite fold_left_bind.
  apply (for_each_fold (fun q s => fold_left _ _ s)). intros q st3.
  simpl. apply iteration_record.
Qed.

Lemma length_bind_const {A B} (g : A -> list B) (n : nat) (l : list A) :
  (forall x, length (g x) = n) -> length (l ≫= g) = (length l * n)%nat.
Proof.
  intros Hg. induction l as [|x l IH]; [reflexivity|].
  rewrite bind_cons, length_app, Hg, IH. reflexivity.
Qed.

Lemma grid_length p_values d_values q_values :
  length (grid p_values d_values q_values)
  = (length p_values * length d_values * length q_values)%nat.
Proof.
  unfold grid.
  rewrite (length_bind_const _ (length d_values * length q_values)); [lia|].
  intros p. rewrite (length_bind_const _ (length q_values)); [lia|].
  intros d. rewrite (length_bind_const _ 1); [lia|]. reflexivity.
Qed.

Lemma elem_of_grid p_values d_values q_values p d q :
  In (p, d, q) (grid p_values d_values q_values)
  <-> In p p_values /\ In d d_values /\ In q q_values.
Proof.
  unfold grid. rewrite <- !list_elem_of_In.
  rewrite list_elem_of_bind. split.
  - intros (p' & Hin & Hp). apply list_elem_of_bind in Hin as (d' & Hin & Hd).
    apply list_elem_of_bind in Hin as (q' & Hin & Hq).
    apply list_elem_of_singleton in Hin. injection Hin as -> -> ->. auto.
  - intros (Hp & Hd & Hq). exists p. split; [|assumption].
    apply list_elem_of_bind. exists d. split; [|assumption].
    apply list_elem_of_bind. exists q. split; [|assumption].
    apply list_elem_of_singleton. reflexivity.
Qed.

(** *** Outcome of one candidate *)

Ltac calls :=
  repeat match goal with
    | |- context [match ?c with Ok _ => _ | Raise _ => _ end] => destruct c eqn:?
    | H : context [match ?c with Ok _ => _ | Raise _ => _ end] |- _ => destruct c eqn:?
    | |- context [if ?c then Raise _ else _] => destruct c eqn:?
    | H : context [if ?c then Raise _ else _] |- _ => destruct c eqn:?
    end.

Lemma attempt_order o r model_fit :
  attempt self metrics bounds o = Ok (r, model_fit) -> fst r = o.
Proof.
  unfold attempt, mbind, result_bind. intros Ha.
  calls; try discriminate.
  injection Ha as <- _. reflexivity.
Qed.

Lemma out_of_bounds_false lo hi x :
  out_of_bounds (lo, hi) x = false <-> num_lt x lo = false /\ num_gt x hi = false.
Proof.
  unfold out_of_bounds. simpl.
  destruct (num_lt x lo), (num_gt x hi); simpl; intuition discriminate.
Qed.

Lemma existsb_false {A} (f : A -> bool) l :
  existsb f l = false <-> forall x, In x l -> f x = false.
Proof.
  induction l as [|y l IH]; simpl.
  - intuition.
  - rewrite orb_false_iff, IH. split.
    + intros [Hy Hl] x [<-|Hx]; auto.
    + intros Hall. split; [apply Hall; auto|]. intros x Hx. apply Hall. auto.
Qed.

(** A candidate that passes has a prediction, and with bounds supplied
    every value of it lies within them. *)
Lemma attempt_within_bounds o r model_fit :
  attempt self metrics bounds o = Ok (r, model_fit) ->
  exists full_pred,
    full_prediction self o = Ok full_pred /\
    forall lo hi, bounds = Some (lo, hi) ->
      forall x, In x full_pred -> num_lt x lo = false /\ num_gt x hi = false.
Proof.
  unfold attempt, full_prediction, mbind, result_bind. intros Ha.
  calls; try discriminate.
  eexists. split; [reflexivity|].
  intros lo hi -> x Hx.
  destruct (existsb _ _) eqn:Hex; [discriminate|].
  apply out_of_bounds_false. revert x Hx. apply existsb_false. exact Hex.
Qed.

Lemma raises_at_passing o :
  raises_at self metrics bounds o <-> passing self metrics bounds o = false.
Proof.
  unfold passing, attempt, mbind, result_bind. split.
  - intros [e He|model e Hm He|model model_fit e Hm Hf He
           |model model_fit insample_pred e Hm Hf Hp He
           |full_pred lo hi x Hfull -> Hx Hout
           |model model_fit insample_pred e Hm Hf Hp He].
    + now rewrite He.
    + now rewrite Hm, He.
    + now rewrite Hm, Hf, He.
    + now rewrite Hm, Hf, Hp, He.
    + unfold full_prediction, mbind, result_bind in Hfull.
      destruct (ARIMA_new _ _ o) as [model|]; [|discriminate].
      destruct (ARIMA_fit model) as [model_fit|]; [|discriminate].
      destruct (predict model_fit) as [insample_pred|]; [|discriminate].
      destruct (get_forecast _ _ _) as [outsample_fc|]; [|discriminate].
      injection Hfull as <-.
      assert (Hex : existsb (out_of_bounds (lo, hi))
                      (insample_pred ++ predicted_mean outsample_fc) = true).
      { apply existsb_exists. exists x. split; [assumption|].
        unfold out_of_bounds. simpl. destruct Hout as [-> | ->]; [reflexivity|].
        now rewrite orb_true_r. }
      now rewrite Hex.
    + rewrite Hm, Hf, Hp, He.
      destruct (get_forecast _ _ _) as [outsample_fc|]; [|reflexivity].
      match goal with |- context [if ?c then _ else _] => destruct c end; reflexivity.
  - intros Hfail.
    destruct (ARIMA_new _ _ o) as [model|e] eqn:Hm; [|eapply at_construction; eassumption].
    destruct (ARIMA_fit model) as [model_fit|e] eqn:Hf; [|eapply at_fit; eassumption].
    destruct (predict model_fit) as [insample_pred|e] eqn:Hp;
      [|eapply at_predict; eassumption].
    destruct (get_forecast _ _ _) as [outsample_fc|e] eqn:Hg;
      [|eapply at_forecast; eassumption].
    destruct bounds as [[lo hi]|] eqn:Hb.
    + destruct (existsb _ _) eqn:Hex.
      * apply existsb_exists in Hex as (x & Hx & Hout).
        eapply (at_bounds_check _ _ _ _ (insample_pred ++ predicted_mean outsample_fc) lo hi x);
          [|reflexivity|exact Hx|].
        { unfold full_prediction, mbind, result_bind. now rewrite Hm, Hf, Hp, Hg. }
        unfold out_of_bounds in Hout. simpl in Hout.
        destruct (num_lt x lo); [now left|]. destruct (num_gt x hi); [now right|discriminate].
      * destruct (append_metrics _ _ _ _) as [v|e] eqn:Ha; [discriminate|].
        eapply at_metric; eassumption.
    + destruct (append_metrics _ _ _ _) as [v|e] eqn:Ha; [discriminate|].
      eapply at_metric; eassumption.
Qed.

(** A candidate that raises costs one failure and nothing else. *)
Lemma iteration_raises return_models p d q st :
  raises_at self metrics bounds (p, d, q) ->
  iteration self metrics bounds return_models p d q st
  = (Ok tt, tracker_update (incr_failures st)).
Proof.
  intros Hraise. apply raises_at_passing in Hraise. unfold passing in Hraise.
  rewrite iteration_record.
  destruct (attempt self metrics bounds (p, d, q)); [discriminate|reflexivity].
Qed.

(** *** The variables after a pass over a list of combinations *)

Lemma run_passes rm l st :
  passes (run self metrics bounds rm l st)
  = (passes st + length (List.filter (passing self metrics bounds) l))%nat.
Proof.
  unfold run, passing. revert st.
  induction l as [|o l IH]; intros st; simpl; [lia|].
  rewrite IH. destruct (attempt self metrics bounds o) as [[r mf]|e]; simpl;
    destruct rm; simpl; lia.
Qed.

Lemma run_failures rm l st :
  failures (run self metrics bounds rm l st)
  = (failures st
     + length (List.filter (fun o => negb (passing self metrics bounds o)) l))%nat.
Proof.
  unfold run, passing. revert st.
  induction l as [|o l IH]; intros st; simpl; [lia|].
  rewrite IH. destruct (attempt self metrics bounds o) as [[r mf]|e]; simpl;
    destruct rm; simpl; lia.
Qed.

Lemma run_tracker rm l st :
  tracker (run self metrics bounds rm l st) = (tracker st + length l)%nat.
Proof.
  unfold run. revert st.
  induction l as [|o l IH]; intros st; simpl; [lia|].
  rewrite IH. destruct (attempt self metrics bounds o) as [[r mf]|e]; simpl;
    destruct rm; simpl; lia.
Qed.

Lemma run_orders rm l st :
  orders (run self metrics bounds rm l st)
  = (orders st ++ omap (row_of self metrics bounds) l)%list.
Proof.
  unfold run, row_of. revert st.
  induction l as [|o l IH]; intros st; simpl; [now rewrite app_nil_r|].
  rewrite IH. destruct (attempt self metrics bounds o) as [[r mf]|e]; simpl.
  - destruct rm; simpl; now rewrite <- app_assoc.
  - reflexivity.
Qed.

Lemma omap_row_of_order l :
  map fst (omap (row_of self metrics bounds) l)
  = List.filter (passing self metrics bounds) l.
Proof.
  unfold row_of, passing.
  induction l as [|o l IH]; simpl; [reflexivity|].
  destruct (attempt self metrics bounds o) as [[r mf]|e] eqn:Ha; simpl.
  - f_equal; [eapply attempt_order; exact Ha | exact IH].
  - exact IH.
Qed.

Lemma run_models_false l st :
  models (run self metrics bounds false l st) = models st.
Proof.
  unfold run. revert st.
  induction l as [|o l IH]; intros st; simpl; [reflexivity|].
  rewrite IH. destruct (attempt self metrics bounds o) as [[r mf]|e]; reflexivity.
Qed.

Lemma run_models_dom l st :
  dom (models (run self metrics bounds true l st))
  = dom (models st) ∪ list_to_set (List.filter (passing self metrics bounds) l).
Proof.
  unfold run, passing. revert st.
  induction l as [|o l IH]; intros st; simpl.
  { now rewrite (right_id_L ∅ (∪)). }
  rewrite IH. destruct (attempt self metrics bounds o) as [[r mf]|e] eqn:Ha; simpl.
  - rewrite dom_insert_L. apply attempt_order in Ha as ->.
    rewrite (comm_L (∪) {[o]} (dom (models st))).
    now rewrite (assoc_L (∪)).
  - reflexivity.
Qed.

Lemma run_models_lookup l st o model_fit :
  models (run self metrics bounds true l st) !! o = Some model_fit ->
  models st !! o = Some model_fit \/
  exists r, attempt self metrics bounds o = Ok (r, model_fit).
Proof.
  unfold run. revert st.
  induction l as [|o' l IH]; intros st; simpl; [auto|].
  intros Hl. apply IH in Hl as [Hl|Hl]; [|auto].
  destruct (attempt self metrics bounds o') as [[r mf]|e] eqn:Ha; simpl in Hl; [|auto].
  pose proof (attempt_order _ _ _ Ha) as Hr. rewrite Hr in Hl.
  destruct (decide (o' = o)) as [->|Hne].
  - rewrite lookup_insert_eq in Hl. injection Hl as ->. eauto.
  - rewrite lookup_insert_ne in Hl by assumption. auto.
Qed.

(** *** The column labels *)

Lemma omap_cons {A B} (f : A -> option B) x l :
  omap f (x :: l) = match f x with Some y => y :: omap f l | None => omap f l end.
Proof. reflexivity. Qed.

Lemma metric_names_named (ms : list metric) :
  Forall named ms -> metric_names ms = Ok (omap __name__ ms).
Proof.
  induction 1 as [|m ms [name Hm] _ IH]; [reflexivity|].
  cbn [metric_names]. unfold getattr_name. rewrite Hm, IH, omap_cons, Hm. reflexivity.
Qed.

Lemma metric_names_raises (ms : list metric) e :
  metric_names ms = Raise e ->
  e = AttributeError /\ exists m, In m ms /\ __name__ m = None.
Proof.
  induction ms as [|m ms IH]; [discriminate|].
  cbn [metric_names]. unfold getattr_name.
  destruct (__name__ m) as [name|] eqn:Hm.
  - destruct (metric_names ms) as [names|e'] eqn:Hms; [discriminate|].
    intros [= ->]. destruct (IH eq_refl) as (He & m' & Hin & Hm').
    split; [exact He|]. exists m'. split; [now right|exact Hm'].
  - intros [= <-]. split; [reflexivity|]. exists m. split; [now left|exact Hm].
Qed.

Lemma metric_names_ok (ms : list metric) names :
  metric_names ms = Ok names -> Forall named ms.
Proof.
  revert names. induction ms as [|m ms IH]; intros names; [constructor|].
  cbn [metric_names]. unfold getattr_name.
  destruct (__name__ m) as [name|] eqn:Hm; [|discriminate].
  destruct (metric_names ms) as [names'|] eqn:Hms; [|discriminate].
  intros _. constructor; [now exists name|]. now apply (IH names').
Qed.

(** *** The whole search *)

(** What has been shown when the call ends does not depend on the names
    of the metrics: the status line is printed before they are read. *)
Lemma exhaustive_search_shown p_values d_values q_values rm :
  snd (exhaustive_search self p_values d_values q_values metrics bounds rm)
  = let st := run self metrics bounds rm (grid p_values d_values q_values) search_init in
    {| steps_count := length p_values * length d_values * length q_values;
       tracker_updates := tracker st;
       status_line := Some (passes st, failures st) |}.
Proof.
  unfold exhaustive_search. rewrite loops_run.
  destruct (metric_names metrics); reflexivity.
Qed.

(** When every metric has a name the search returns, and what it returns
    is read off the pass over the grid. *)
Lemma exhaustive_search_returns p_values d_values q_values rm :
  Forall named metrics ->
  fst (exhaustive_search self p_values d_values q_values metrics bounds rm)
  = let st := run self metrics bounds rm (grid p_values d_values q_values) search_init in
    Ok {| columns := labelled (orders st) (omap __name__ metrics);
          model_results := orders st;
          returned_models := if rm then Some (models st) else None |}.
Proof.
  intros Hnamed. unfold exhaustive_search.
  rewrite loops_run, (metric_names_named _ Hnamed). reflexivity.
Qed.

(** Otherwise it raises, and the only exception it can raise is the one
    of a metric without a name. *)
Lemma exhaustive_search_raises p_values d_values q_values rm e :
  fst (exhaustive_search self p_values d_values q_values metrics bounds rm) = Raise e ->
  e = AttributeError /\ exists m, In m metrics /\ __name__ m = None.
Proof.
  unfold exhaustive_search. rewrite loops_run.
  destruct (metric_names metrics) as [names|e'] eqn:Hnames; [discriminate|].
  intros [= <-]. now apply metric_names_raises.
Qed.

End SearchFacts.

Section SearchClaims.
Context `{Statsmodels}.
Import ARIMAWrapper.
Variables (self : t) (metrics : list metric).

(** C1.  Accounting.  Each iteration advances the progress bar once and
    increments exactly one of [passes] and [failures].  Whatever the
    metrics are, the status line is printed; the passes it reports are the
    combinations of the grid whose [try] block completes, the failures are
    the others, the two counts add up to [|P| * |D| * |Q|], and the bar was
    advanced once per combination. *)
Theorem exhaustive_search_accounting
    (bounds : option (num * num)) (p_values d_values q_values : list Z)
    (return_models : bool) :
  (forall p d q st, exists st',
      iteration self metrics bounds return_models p d q st = (Ok tt, st') /\
      tracker st' = S (tracker st) /\
      ((passes st' = S (passes st) /\ failures st' = failures st) \/
       (passes st' = passes st /\ failures st' = S (failures st)))) /\
  exists reported_passes reported_failures,
    let shown :=
      snd (exhaustive_search self p_values d_values q_values metrics bounds
             return_models) in
    status_line shown = Some (reported_passes, reported_failures) /\
    (reported_passes + reported_failures
     = length p_values * length d_values * length q_values)%nat /\
    reported_passes
    = length (List.filter (passing self metrics bounds)
                (grid p_values d_values q_values)) /\
    reported_failures
    = length (List.filter (fun o => negb (passing self metrics bounds o))
                (grid p_values d_values q_values)) /\
    tracker_updates shown = (length p_values * length d_values * length q_values)%nat /\
    steps_count shown = (length p_values * length d_values * length q_values)%nat.
Proof.
  split.
  - intros p d q st. eexists. split; [apply iteration_record|].
    destruct (attempt self metrics bounds (p, d, q)) as [[r mf]|e]; simpl;
      destruct return_models; simpl; auto.
  - eexists. eexists. cbv zeta. rewrite exhaustive_search_shown. cbv zeta.
    cbn [status_line tracker_updates steps_count].
    split; [reflexivity|].
    rewrite run_passes, run_failures, run_tracker, grid_length. simpl.
    repeat split; try reflexivity.
    rewrite List.filter_length, grid_length. reflexivity.
Qed.

(** C3.  A candidate that raises at any step of its [try] block
    (construction, fit, prediction, forecast, bounds check, a metric) only
    adds one to [failures]: the iteration itself does not raise and leaves
    [passes], [orders] and [models] as they were.  The loops run to their
    end: the bar is advanced for every combination and the status line
    counts the failing ones.  No exception of a candidate reaches the
    caller: the call raises only when a metric has no [__name__] for the
    column labels, and otherwise returns the table, in which the candidate
    has no row while every other combination that completes, before and
    after it, has one. *)
Theorem exhaustive_search_failure_contained
    (bounds : option (num * num)) (p_values d_values q_values : list Z)
    (return_models : bool) (p d q : Z) :
  raises_at self metrics bounds (p, d, q) ->
  let call :=
    exhaustive_search self p_values d_values q_values metrics bounds return_models in
  (forall st,
      iteration self metrics bounds return_models p d q st
      = (Ok tt, tracker_update (incr_failures st))) /\
  status_line (snd call)
  = Some (length (List.filter (passing self metrics bounds)
                    (grid p_values d_values q_values)),
          length (List.filter (fun o => negb (passing self metrics bounds o))
                    (grid p_values d_values q_values))) /\
  tracker_updates (snd call)
  = (length p_values * length d_values * length q_values)%nat /\
  (forall e, fst call = Raise e ->
             e = AttributeError /\ exists m, In m metrics /\ __name__ m = None) /\
  (Forall named metrics ->
   exists out,
     fst call = Ok out /\
     ~ In (p, d, q) (map fst (model_results out)) /\
     model_results out
     = omap (row_of self metrics bounds) (grid p_values d_values q_values)).
Proof.
  intros Hraise call. subst call. split.
  { intros st. apply iteration_raises. exact Hraise. }
  rewrite exhaustive_search_shown. cbv zeta. cbn [status_line tracker_updates].
  rewrite run_passes, run_failures, run_tracker, grid_length. simpl.
  split; [reflexivity|]. split; [reflexivity|].
  split; [intros e; apply exhaustive_search_raises|].
  intros Hnamed. eexists. split; [now apply exhaustive_search_returns|].
  cbv zeta. cbn [model_results]. rewrite run_orders. simpl.
  split; [|reflexivity].
  rewrite omap_row_of_order. intros Hin.
  apply filter_In in Hin as [_ Hpass].
  apply raises_at_passing in Hraise. congruence.
Qed.

(** C4.  With [bounds = (lo, hi)], a candidate whose combined prediction
    has a value below [lo] or above [hi] is counted as a failure; in the
    table the search returns (it returns whenever the metrics have names)
    such a candidate has no row, and every row belongs to a candidate
    whose combined prediction has no value below [lo] and none above
    [hi]. *)
Theorem exhaustive_search_respects_bounds
    (lo hi : num) (p_values d_values q_values : list Z) (return_models : bool) :
  (forall p d q full_pred x st,
      full_prediction self (p, d, q) = Ok full_pred ->
      In x full_pred ->
      num_lt x lo = true \/ num_gt x hi = true ->
      iteration self metrics (Some (lo, hi)) return_models p d q st
      = (Ok tt, tracker_update (incr_failures st))) /\
  (Forall named metrics ->
   exists out,
     fst (exhaustive_search self p_values d_values q_values metrics (Some (lo, hi))
            return_models) = Ok out /\
     (forall p d q full_pred x,
         full_prediction self (p, d, q) = Ok full_pred ->
         In x full_pred ->
         num_lt x lo = true \/ num_gt x hi = true ->
         ~ In (p, d, q) (map fst (model_results out))) /\
     (forall r, In r (model_results out) ->
        exists full_pred,
          full_prediction self (fst r) = Ok full_pred /\
          forall x, In x full_pred -> num_lt x lo = false /\ num_gt x hi = false)).
Proof.
  split.
  - intros p d q full_pred x st Hfull Hx Hout.
    apply iteration_raises. eapply at_bounds_check; eauto.
  - intros Hnamed. eexists. split; [now apply exhaustive_search_returns|].
    cbv zeta. cbn [model_results]. rewrite run_orders. simpl.
    split.
    + intros p d q full_pred x Hfull Hx Hout.
      rewrite omap_row_of_order. intros Hin. apply filter_In in Hin as [_ Hpass].
      assert (Hr : raises_at self metrics (Some (lo, hi)) (p, d, q))
        by (eapply at_bounds_check; eauto).
      apply raises_at_passing in Hr. congruence.
    + intros r Hr. apply list_elem_of_In, list_elem_of_omap in Hr as (o & _ & Hrow).
      unfold row_of in Hrow.
      destruct (attempt self metrics (Some (lo, hi)) o) as [[r' mf]|e] eqn:Ha;
        [|discriminate].
      injection Hrow as ->.
      pose proof (attempt_order _ _ _ _ _ _ Ha) as ->.
      destruct (attempt_within_bounds _ _ _ _ _ _ Ha) as (full_pred & Hfull & Hin).
      exists full_pred. split; [assumption|]. intros x Hx. eapply Hin; eauto.
Qed.

(** C5.  When the search returns, which it does whenever the metrics
    have names, the order column of its table is the list of the
    combinations of the grid that complete, in the order the three nested
    loops visit them; so every row carries an order [(p, d, q)] with [p],
    [d] and [q] taken from the lists supplied. *)
Theorem exhaustive_search_rows_from_grid
    (bounds : option (num * num)) (p_values d_values q_values : list Z)
    (return_models : bool) :
  Forall named metrics ->
  exists out,
    fst (exhaustive_search self p_values d_values q_values metrics bounds
           return_models) = Ok out /\
    model_results out
    = omap (row_of self metrics bounds) (grid p_values d_values q_values) /\
    map fst (model_results out)
    = List.filter (passing self metrics bounds) (grid p_values d_values q_values) /\
    (forall r, In r (model_results out) ->
       exists p d q, fst r = (p, d, q) /\
                     In p p_values /\ In d d_values /\ In q q_values).
Proof.
  intros Hnamed. eexists. split; [now apply exhaustive_search_returns|].
  cbv zeta. cbn [model_results]. rewrite run_orders. simpl.
  split; [reflexivity|]. split; [apply omap_row_of_order|].
  intros r Hr. apply (in_map fst) in Hr. rewrite omap_row_of_order in Hr.
  apply filter_In in Hr as [Hgrid _].
  destruct (fst r) as [[p d] q]. exists p, d, q. split; [reflexivity|].
  apply elem_of_grid. exact Hgrid.
Qed.

(** C9.  With [return_models=True], when the search returns, which it
    does whenever the metrics have names, it returns a dictionary whose
    keys are exactly the orders of the rows of the table, that is, the
    combinations of the grid that complete; the value kept under a key is
    a model fitted for that order. *)
Theorem exhaustive_search_models_keys
    (bounds : option (num * num)) (p_values d_values q_values : list Z) :
  Forall named metrics ->
  exists out fitted,
    fst (exhaustive_search self p_values d_values q_values metrics bounds true)
    = Ok out /\
    returned_models out = Some fitted /\
    dom fitted = list_to_set (map fst (model_results out)) /\
    (forall o, o ∈ dom fitted <->
               In o (grid p_values d_values q_values) /\
               passing self metrics bounds o = true) /\
    (forall o model_fit, fitted !! o = Some model_fit ->
       exists r, attempt self metrics bounds o = Ok (r, model_fit)).
Proof.
  intros Hnamed. eexists. eexists. split; [now apply exhaustive_search_returns|].
  cbv zeta. cbn [model_results returned_models].
  split; [reflexivity|]. rewrite run_orders, run_models_dom. simpl.
  rewrite omap_row_of_order, dom_empty_L, (left_id_L ∅ (∪)).
  split; [reflexivity|]. split.
  - intros o. rewrite elem_of_list_to_set, list_elem_of_In, filter_In. reflexivity.
  - intros o model_fit Hl. apply run_models_lookup in Hl as [Hl|Hl]; [|exact Hl].
    simpl in Hl. rewrite lookup_empty in Hl. discriminate.
Qed.

(** Without [return_models] no dictionary is returned. *)
Lemma exhaustive_search_no_models
    (bounds : option (num * num)) (p_values d_values q_values : list Z) :
  Forall named metrics ->
  exists out,
    fst (exhaustive_search self p_values d_values q_values metrics bounds false)
    = Ok out /\
    returned_models out = None.
Proof.
  intros Hnamed. eexists. split; [now apply exhaustive_search_returns|]. reflexivity.
Qed.

End SearchClaims.

Lemma toy_named : Forall (@named toy) [toy_metric].
Proof. repeat constructor. now exists "total". Qed.

(** The search on [toy], with the orders [{0, 1} x {0, 2} x {1, 7, 3}] and
    the bounds [(0, 20)]: fitting [(0, 2, 1)] raises. *)
Lemma exhaustive_search_failure_contained_witness :
  @raises_at toy toy_self [toy_metric] (Some (0, 20)%Z) (0, 2, 1)%Z /\
  (forall st,
      @ARIMAWrapper.iteration toy toy_self [toy_metric] (Some (0, 20)%Z) true 0 2 1 st
      = (Ok tt, ARIMAWrapper.tracker_update (ARIMAWrapper.incr_failures st))) /\
  exists out,
    fst (@ARIMAWrapper.exhaustive_search toy toy_self [0; 1]%Z [0; 2]%Z [1; 7; 3]%Z
           [toy_metric] (Some (0, 20)%Z) true) = Ok out /\
    ~ In (0, 2, 1)%Z (map fst (ARIMAWrapper.model_results out)).
Proof.
  assert (Hraise : @raises_at toy toy_self [toy_metric] (Some (0, 20)%Z) (0, 2, 1)%Z)
    by (eapply (@at_fit toy); reflexivity).
  split; [exact Hraise|].
  destruct (@exhaustive_search_failure_contained toy toy_self [toy_metric]
              (Some (0, 20)%Z) [0; 1]%Z [0; 2]%Z [1; 7; 3]%Z true 0%Z 2%Z 1%Z Hraise)
    as (Hiter & _ & _ & _ & Hret).
  split; [exact Hiter|].
  destruct (Hret toy_named) as (out & Hsearch & Hnot & _).
  exists out. split; [exact Hsearch|exact Hnot].
Defined.

(** On [toy] the forecast of [(0, 0, 3)] is 30, above the bound 20. *)
Lemma exhaustive_search_respects_bounds_witness :
  (forall st,
      @ARIMAWrapper.iteration toy toy_self [toy_metric] (Some (0, 20)%Z) true 0 0 3 st
      = (Ok tt, ARIMAWrapper.tracker_update (ARIMAWrapper.incr_failures st))) /\
  exists out,
    fst (@ARIMAWrapper.exhaustive_search toy toy_self [0; 1]%Z [0; 2]%Z [1; 7; 3]%Z
           [toy_metric] (Some (0, 20)%Z) true) = Ok out /\
    ~ In (0, 0, 3)%Z (map fst (ARIMAWrapper.model_results out)).
Proof.
  destruct (@exhaustive_search_respects_bounds toy toy_self [toy_metric] 0%Z 20%Z
              [0; 1]%Z [0; 2]%Z [1; 7; 3]%Z true) as (Hiter & Hret).
  destruct (Hret toy_named) as (out & Hsearch & Hnot & _).
  split.
  - intros st. apply (Hiter 0%Z 0%Z 3%Z [0; 0; 30; 30]%Z 30%Z st);
      [reflexivity | simpl; auto | right; reflexivity].
  - exists out. split; [exact Hsearch|].
    apply (Hnot 0%Z 0%Z 3%Z [0; 0; 30; 30]%Z 30%Z);
      [reflexivity | simpl; auto | right; reflexivity].
Defined.

Lemma exhaustive_search_rows_from_grid_witness :
  exists out,
    fst (@ARIMAWrapper.exhaustive_search toy toy_self [0; 1]%Z [0; 2]%Z [1; 7; 3]%Z
           [toy_metric] (Some (0, 20)%Z) false) = Ok out /\
    map fst (ARIMAWrapper.model_results out)
    = List.filter (@passing toy toy_self [toy_metric] (Some (0, 20)%Z))
        (grid [0; 1]%Z [0; 2]%Z [1; 7; 3]%Z).
Proof.
  destruct (@exhaustive_search_rows_from_grid toy toy_self [toy_metric]
              (Some (0, 20)%Z) [0; 1]%Z [0; 2]%Z [1; 7; 3]%Z false toy_named)
    as (out & Hsearch & _ & Horder & _).
  exists out. split; [exact Hsearch|exact Horder].
Defined.

Lemma exhaustive_search_models_keys_witness :
  exists out fitted,
    fst (@ARIMAWrapper.exhaustive_search toy toy_self [0; 1]%Z [0; 2]%Z [1; 7; 3]%Z
           [toy_metric] (Some (0, 20)%Z) true) = Ok out /\
    ARIMAWrapper.returned_models out = Some fitted /\
    dom fitted = list_to_set (map fst (ARIMAWrapper.model_results out)).
Proof.
  destruct (@exhaustive_search_models_keys toy toy_self [toy_metric]
              (Some (0, 20)%Z) [0; 1]%Z [0; 2]%Z [1; 7; 3]%Z toy_named)
    as (out & fitted & Hsearch & Hret & Hdom & _).
  exists out, fitted. auto.
Defined.

(** ** Order strings *)

#[local] Arguments String.append !_ _ / : simpl nomatch.

Lemma append_nil_r (s : string) : s ++ "" = s.
Proof. induction s as [|c s IH]; simpl; [reflexivity|]. now rewrite IH. Qed.

Lemma append_assoc (a b c : string) : (a ++ b) ++ c = a ++ (b ++ c).
Proof. induction a as [|x a IH]; simpl; [reflexivity|]. now rewrite IH. Qed.

Lemma length_append (a b : string) :
  String.length (a ++ b) = (String.length a + String.length b)%nat.
Proof. induction a as [|x a IH]; simpl; [reflexivity|]. now rewrite IH. Qed.

Lemma substring_0_append (s t : string) : substring 0 (String.length s) (s ++ t) = s.
Proof.
  induction s as [|c s IH]; simpl.
  - destruct t; reflexivity.
  - now rewrite IH.
Qed.

(** [s[1:-1]] drops the first and the last character. *)
Lemma slice_parens (body : string) : slice ("(" ++ body ++ ")") 1 (-1) = body.
Proof.
  unfold slice, slice_index. simpl String.length. rewrite length_append. simpl String.length.
  set (n := String.length body).
  change (1 <? 0)%Z with false. change (-1 <? 0)%Z with true. cbv iota.
  replace (Z.to_nat (Z.min (Z.of_nat (S (n + 1))) (Z.max 0 1))) with 1%nat by lia.
  replace (Z.to_nat (Z.min (Z.of_nat (S (n + 1))) (Z.max 0 (-1 + Z.of_nat (S (n + 1))))))
    with (S n) by lia.
  replace (S n - 1)%nat with n by lia.
  simpl. apply substring_0_append.
Qed.

(** A piece without a comma is read through to its end. *)
Lemma split_go_free (a : string) :
  free_of "," a = true ->
  forall cur rest,
    split_go ", " 0 cur (a ++ rest)
    = split_go ", " 0 (rev (list_ascii_of_string a) ++ cur)%list rest.
Proof.
  induction a as [|c a IH]; intros Hfree cur rest; [reflexivity|].
  simpl in Hfree. apply andb_true_iff in Hfree as [Hc Hfree].
  change (String c a ++ rest) with (String c (a ++ rest)).
  cbn [split_go String.prefix].
  destruct (Ascii.ascii_dec "," c) as [<-|_]; [discriminate|].
  rewrite (IH Hfree). cbn [list_ascii_of_string rev]. now rewrite <- app_assoc.
Qed.

Lemma split_go_sep cur rest :
  split_go ", " 0 cur (", " ++ rest)
  = string_of_list_ascii (rev cur) :: split_go ", " 0 [] rest.
Proof.
  change (", " ++ rest) with (String "," (String " " rest)).
  cbn [split_go String.prefix].
  destruct (Ascii.ascii_dec "," ",") as [_|Hne]; [|now destruct Hne].
  destruct (Ascii.ascii_dec " " " ") as [_|Hne]; [|now destruct Hne].
  destruct rest; reflexivity.
Qed.

Lemma split_go_last (a : string) cur :
  free_of "," a = true ->
  split_go ", " 0 cur a = [string_of_list_ascii (rev (rev (list_ascii_of_string a) ++ cur))].
Proof.
  intros Hfree. rewrite <- (append_nil_r a) at 1. now rewrite split_go_free.
Qed.

Lemma piece_read (a : string) :
  string_of_list_ascii (rev (rev (list_ascii_of_string a) ++ [])) = a.
Proof.
  rewrite app_nil_r, rev_involutive. apply string_of_list_ascii_of_string.
Qed.

Lemma split_three (a b c : string) :
  free_of "," a = true -> free_of "," b = true -> free_of "," c = true ->
  split (a ++ ", " ++ b ++ ", " ++ c) ", " = [a; b; c].
Proof.
  intros Ha Hb Hc. unfold split.
  rewrite (split_go_free a Ha), split_go_sep, (split_go_free b Hb), split_go_sep,
    (split_go_last c [] Hc).
  now rewrite !piece_read.
Qed.

Lemma string_of_uint_free_of_comma (d : Decimal.uint) :
  free_of "," (NilEmpty.string_of_uint d) = true.
Proof. induction d; simpl; auto. Qed.

(** The decimal form of an integer has no comma. *)
Lemma str_free_of_comma (z : Z) : free_of "," (str z) = true.
Proof.
  unfold str. destruct (Z.to_int z) as [d|d]; simpl;
    apply string_of_uint_free_of_comma.
Qed.

(** C2.  What the code does on the string form of an order: it returns
    the list of the three components as strings, which is not the tuple
    of the three integers the docstring and the return annotation
    promise. *)
Theorem parse_order_returns_strings (p d q : Z) :
  ARIMAWrapper.parse_order (str_tuple3 (p, d, q)) = PyListOfStr [str p; str d; str q] /\
  ARIMAWrapper.parse_order (str_tuple3 (p, d, q)) <> PyTupleOfInt [p; d; q].
Proof.
  assert (Heq : ARIMAWrapper.parse_order (str_tuple3 (p, d, q))
                = PyListOfStr [str p; str d; str q]).
  { unfold ARIMAWrapper.parse_order, str_tuple3.
    replace ("(" ++ str p ++ ", " ++ str d ++ ", " ++ str q ++ ")")
      with ("(" ++ (str p ++ ", " ++ str d ++ ", " ++ str q) ++ ")")
      by (now rewrite !append_assoc).
    rewrite slice_parens.
    now rewrite split_three by apply str_free_of_comma. }
  split; [exact Heq|]. rewrite Heq. discriminate.
Qed.

(** ** The forecast accessor *)

Section ForecastClaims.
Context `{Statsmodels}.
Import ARIMAWrapper.
Variable self : t.

(** An exception of [predict] or [get_forecast] leaves [forecast_with]
    as it is, whatever selection was asked for. *)
Lemma forecast_with_propagates (model_fit : ARIMAResults) (forecast : string) (e : exn) :
  predict model_fit = Raise e \/
  (is_ok (predict model_fit) = true /\
   get_forecast model_fit (df_len (__forecast self)) (__forecast_exog self) = Raise e) ->
  forecast_with self model_fit forecast = Raise e.
Proof.
  unfold forecast_with, mbind, result_bind.
  intros [-> | [Hp ->]]; [reflexivity|].
  destruct (predict model_fit); [reflexivity|discriminate].
Qed.

(** C10, amended.  For a fitted model whose in-sample prediction and
    out-of-sample forecast are computed without raising, [forecast_with]
    returns [None] when the selection is a string other than ['insample'],
    ['outsample'] and ['full']. *)
Theorem forecast_with_other_selection
    (model_fit : ARIMAResults) (forecast : string)
    (insample_pred : list num) (outsample_fc : PredictionResults) :
  predict model_fit = Ok insample_pred ->
  get_forecast model_fit (df_len (__forecast self)) (__forecast_exog self)
  = Ok outsample_fc ->
  forecast <> "insample" -> forecast <> "outsample" -> forecast <> "full" ->
  forecast_with self model_fit forecast = Ok PyNone.
Proof.
  intros Hp Hg Hi Ho Hf. unfold forecast_with, mbind, result_bind.
  rewrite Hp, Hg.
  apply String.eqb_neq in Hi, Ho, Hf. now rewrite Hi, Ho, Hf.
Qed.

(** The three named selections. *)
Lemma forecast_with_named
    (model_fit : ARIMAResults) (insample_pred : list num)
    (outsample_fc : PredictionResults) :
  predict model_fit = Ok insample_pred ->
  get_forecast model_fit (df_len (__forecast self)) (__forecast_exog self)
  = Ok outsample_fc ->
  forecast_with self model_fit "insample" = Ok (Insample insample_pred) /\
  forecast_with self model_fit "outsample" = Ok (Outsample outsample_fc) /\
  forecast_with self model_fit "full"
  = Ok (Full (insample_pred ++ predicted_mean outsample_fc)%list).
Proof.
  intros Hp Hg. unfold forecast_with, mbind, result_bind. rewrite Hp, Hg. auto.
Qed.

End ForecastClaims.

(** C10 as stated fails: [(0, 0, 7)] is a fitted model of [toy] whose
    forecast raises, and so does [forecast_with] on it, for a selection
    that is none of the three names. *)
Lemma forecast_with_none_counterexample :
  @ARIMA_fit toy (0, 0, 7) = Ok (0, 0, 7) /\
  "median" <> "insample" /\ "median" <> "outsample" /\ "median" <> "full" /\
  @ARIMAWrapper.forecast_with toy toy_self (0, 0, 7) "median" = Raise ValueError /\
  @ARIMAWrapper.forecast_with toy toy_self (0, 0, 7) "median" <> Ok ARIMAWrapper.PyNone.
Proof. repeat split; try reflexivity; discriminate. Qed.

Lemma forecast_with_other_selection_witness :
  @ARIMAWrapper.forecast_with toy toy_self (0, 0, 1) "median" = Ok ARIMAWrapper.PyNone.
Proof.
  apply (@forecast_with_other_selection toy toy_self (0, 0, 1) "median" [0; 0] [10; 10]);
    [reflexivity | reflexivity | discriminate | discriminate | discriminate].
Defined.

(** ** The prompts *)

Lemma lower_char_y (c : ascii) :
  lower_char c = "y"%char <-> c = "y"%char \/ c = "Y"%char.
Proof.
  split; [|intros [-> | ->]; reflexivity].
  destruct c as [[] [] [] [] [] [] [] []]; intros Hc; vm_compute in Hc;
    try discriminate Hc; auto.
Qed.

Lemma lower_char_n (c : ascii) :
  lower_char c = "n"%char <-> c = "n"%char \/ c = "N"%char.
Proof.
  split; [|intros [-> | ->]; reflexivity].
  destruct c as [[] [] [] [] [] [] [] []]; intros Hc; vm_compute in Hc;
    try discriminate Hc; auto.
Qed.

Lemma lower_y (line : string) : lower line = "y" <-> line = "y" \/ line = "Y".
Proof.
  split; [|intros [-> | ->]; reflexivity].
  destruct line as [|c [|c' l]]; simpl; intros Hl; try discriminate Hl.
  injection Hl as Hc. apply lower_char_y in Hc as [-> | ->]; auto.
Qed.

Lemma lower_n (line : string) : lower line = "n" <-> line = "n" \/ line = "N".
Proof.
  split; [|intros [-> | ->]; reflexivity].
  destruct line as [|c [|c' l]]; simpl; intros Hl; try discriminate Hl.
  injection Hl as Hc. apply lower_char_n in Hc as [-> | ->]; auto.
Qed.

(** One pass of the yes/no loop, on [input]. *)
Lemma YesNoPrompt_prompt_unfold (self : YesNoPrompt.t) (c : console) :
  YesNoPrompt.prompt self c
  = match input (YesNoPrompt.__indent self ++ YesNoPrompt._prompt self) c with
    | (Ok line, c') =>
        let choice := lower line in
        if (choice =? "y")%string || (choice =? "n")%string
        then (Ok (choice =? "y")%string, c')
        else YesNoPrompt.prompt self
               (Console (stdin c') (print (YesNoPrompt.complaint self choice) (stdout c')))
    | (Raise e, c') => (Raise e, c')
    end.
Proof. destruct c as [[|line rest] out]; reflexivity. Qed.

(** C6, amended.  A line ["y"] or ["Y"] ends the prompt with [True], a
    line ["n"] or ["N"] ends it with [False], both having read that line
    only; any other line is answered with the complaint and the prompt
    starts again on the lines that follow.  At construction the suffix
    ["(y/n): "] is appended when the text, with the white space at its end
    left out, does not end with ["(y/n):"], and the text is kept as it is
    otherwise. *)
Theorem YesNoPrompt_prompt_spec :
  (forall self line rest out,
      line = "y" \/ line = "Y" ->
      YesNoPrompt.prompt self (Console (line :: rest) out)
      = (Ok true, Console rest
                    (echo (YesNoPrompt.__indent self ++ YesNoPrompt._prompt self) out))) /\
  (forall self line rest out,
      line = "n" \/ line = "N" ->
      YesNoPrompt.prompt self (Console (line :: rest) out)
      = (Ok false, Console rest
                     (echo (YesNoPrompt.__indent self ++ YesNoPrompt._prompt self) out))) /\
  (forall self line rest out,
      line <> "y" -> line <> "Y" -> line <> "n" -> line <> "N" ->
      YesNoPrompt.prompt self (Console (line :: rest) out)
      = YesNoPrompt.prompt self
          (Console rest
             (print (YesNoPrompt.complaint self (lower line))
                (echo (YesNoPrompt.__indent self ++ YesNoPrompt._prompt self) out)))) /\
  (forall text indent,
      YesNoPrompt._prompt (YesNoPrompt.__init__ text indent)
      = if endswith (rstrip text) "(y/n):" then text else text ++ "(y/n): ").
Proof.
  unfold YesNoPrompt.prompt. repeat split.
  - intros self line rest out Hy. apply lower_y in Hy. simpl. now rewrite Hy.
  - intros self line rest out Hn. apply lower_n in Hn. simpl. now rewrite Hn.
  - intros self line rest out Hy HY Hn HN. simpl.
    destruct (lower line =? "y")%string eqn:Ey.
    { apply String.eqb_eq, lower_y in Ey as [? | ?]; contradiction. }
    destruct (lower line =? "n")%string eqn:En.
    { apply String.eqb_eq, lower_n in En as [? | ?]; contradiction. }
    reflexivity.
  - intros text indent. simpl. now destruct (endswith (rstrip text) "(y/n):").
Qed.

(** C6 as stated fails at construction: this text does not end with
    ["(y/n):"], a space follows, and yet no suffix is appended. *)
Lemma YesNoPrompt_suffix_counterexample :
  endswith "Sure? (y/n): " "(y/n):" = false /\
  YesNoPrompt._prompt (YesNoPrompt.__init__ "Sure? (y/n): " 0) = "Sure? (y/n): " /\
  YesNoPrompt._prompt (YesNoPrompt.__init__ "Sure? (y/n): " 0)
  <> "Sure? (y/n): " ++ "(y/n): ".
Proof. repeat split; try reflexivity. discriminate. Qed.

Lemma YesNoPrompt_prompt_spec_witness :
  YesNoPrompt.prompt (YesNoPrompt.__init__ "Go on?" 1) (Console ["Y"; "n"] [])
  = (Ok true, Console ["n"] [TAB ++ "Go on?(y/n): "]) /\
  YesNoPrompt.prompt (YesNoPrompt.__init__ "Go on?" 1) (Console ["maybe"; "n"] [])
  = YesNoPrompt.prompt (YesNoPrompt.__init__ "Go on?" 1)
      (Console ["n"]
         (print (YesNoPrompt.complaint (YesNoPrompt.__init__ "Go on?" 1) "maybe")
            [TAB ++ "Go on?(y/n): "])).
Proof.
  destruct YesNoPrompt_prompt_spec as (Hyes & _ & Hother & _). split.
  - apply (Hyes (YesNoPrompt.__init__ "Go on?" 1) "Y" ["n"] []). now right.
  - apply (Hother (YesNoPrompt.__init__ "Go on?" 1) "maybe" ["n"] []); discriminate.
Defined.

(** *** Multiple choice *)

Section OptionsListFacts.
Import OptionsList.
Variable self : t.

Lemma loop_accepts line rest out k :
  option_choice self line k ->
  loop self (line :: rest) out = (Ok k, Console rest (show self out)).
Proof.
  intros [Hint [Hlo Hhi]]. simpl. rewrite Hint.
  destruct (k <? 1)%Z eqn:E1; [lia|].
  destruct (k >? Z.of_nat (length (__options self)))%Z eqn:E2; [lia|].
  reflexivity.
Qed.

Lemma loop_rejects line rest out :
  (forall k, ~ option_choice self line k) ->
  exists got,
    loop self (line :: rest) out
    = loop self rest (print (complaint self got) (show self out)).
Proof.
  intros Hno. simpl. destruct (int line) as [k|e] eqn:Hint.
  - exists (str k).
    destruct ((k <? 1)%Z || (k >? Z.of_nat (length (__options self)))%Z) eqn:E;
      [reflexivity|].
    apply orb_false_iff in E as [E1 E2].
    exfalso. apply (Hno k). split; [exact Hint|lia].
  - exists line. reflexivity.
Qed.

(** The prompt returns the choice of the first line it accepts and has
    read the lines up to that one. *)
Lemma loop_first_accepted rejected line rest k :
  Forall (fun l => forall k', ~ option_choice self l k') rejected ->
  option_choice self line k ->
  forall out, exists out',
    loop self (rejected ++ line :: rest) out = (Ok k, Console rest out').
Proof.
  intros Hrej Hacc. induction Hrej as [|l ls Hl _ IH]; intros out.
  - eexists. apply loop_accepts. exact Hacc.
  - destruct (loop_rejects l (ls ++ line :: rest) out Hl) as [got Hstep].
    destruct (IH (print (complaint self got) (show self out))) as [out' Hout'].
    exists out'. simpl app. rewrite Hstep. exact Hout'.
Qed.

End OptionsListFacts.

(** One pass of the multiple-choice loop, on [input]. *)
Lemma OptionsList_prompt_unfold (self : OptionsList.t) (c : console) :
  OptionsList.prompt self c
  = let shown :=
      Console (stdin c)
        (OptionsList.print_options (OptionsList.__indent self) 0
           (OptionsList.__options self)
           (print (OptionsList.__indent self ++ OptionsList._prompt self) (stdout c))) in
    match input (OptionsList.__indent self ++ ">>> ") shown with
    | (Ok line, c') =>
        match int line with
        | Ok choice =>
            if (choice <? 1)%Z
               || (choice >? Z.of_nat (length (OptionsList.__options self)))%Z
            then OptionsList.prompt self
                   (Console (stdin c')
                      (print (OptionsList.complaint self (str choice)) (stdout c')))
            else (Ok choice, c')
        | Raise _ =>
            OptionsList.prompt self
              (Console (stdin c') (print (OptionsList.complaint self line) (stdout c')))
        end
    | (Raise e, c') => (Raise e, c')
    end.
Proof. destruct c as [[|line rest] out]; reflexivity. Qed.

(** C7.  A line that parses as an integer [k] with [1 <= k <= N] ends the
    prompt, which returns [k]; any other line is answered with the
    complaint and the prompt starts again on the lines that follow; so
    the prompt returns the choice of the first accepted line.  With four
    options and the lines ["0"], ["5"], ["2"] it shows the menu three
    times, complains twice, and returns 2. *)
Theorem OptionsList_prompt_spec :
  (forall self line rest out k,
      option_choice self line k ->
      OptionsList.prompt self (Console (line :: rest) out)
      = (Ok k, Console rest (OptionsList.show self out))) /\
  (forall self line rest out,
      (forall k, ~ option_choice self line k) ->
      exists got,
        OptionsList.prompt self (Console (line :: rest) out)
        = OptionsList.prompt self
            (Console rest
               (print (OptionsList.complaint self got) (OptionsList.show self out)))) /\
  (forall self rejected line rest out k,
      Forall (fun l => forall k', ~ option_choice self l k') rejected ->
      option_choice self line k ->
      exists out',
        OptionsList.prompt self (Console (rejected ++ line :: rest) out)
        = (Ok k, Console rest out')) /\
  (let menu :=
     ["Pick one" ++ NL; TAB ++ "[1] a" ++ NL; TAB ++ "[2] b" ++ NL;
      TAB ++ "[3] c" ++ NL; TAB ++ "[4] d" ++ NL; ">>> "] in
   let complaint got :=
     "Expecting a whole number between 1 and 4, got " ++ QUOTE ++ got ++ QUOTE
     ++ " instead." ++ NL ++ NL in
   OptionsList.prompt (OptionsList.__init__ "Pick one" ["a"; "b"; "c"; "d"] 0)
     (Console ["0"; "5"; "2"] [])
   = (Ok 2%Z,
      Console []
        (menu ++ [complaint "0"] ++ menu ++ [complaint "5"] ++ menu)%list)).
Proof.
  unfold OptionsList.prompt. simpl stdin. simpl stdout. repeat split.
  - intros. now apply loop_accepts.
  - intros. now apply loop_rejects.
  - intros. now apply loop_first_accepted.
Qed.

Lemma OptionsList_prompt_spec_witness :
  OptionsList.prompt (OptionsList.__init__ "Pick one" ["a"; "b"] 0)
    (Console ["2"; "1"] ["earlier"])
  = (Ok 2%Z,
     Console ["1"]
       (OptionsList.show (OptionsList.__init__ "Pick one" ["a"; "b"] 0) ["earlier"])).
Proof.
  destruct OptionsList_prompt_spec as (Haccept & _).
  apply (Haccept (OptionsList.__init__ "Pick one" ["a"; "b"] 0) "2" ["1"] ["earlier"] 2%Z).
  split; [reflexivity|simpl; lia].
Defined.

(** *** Integer list *)

Section FreeIntegerInputFacts.
Import FreeIntegerInput.
Variable self : t.



(** One pass of the loop on a line that is not empty: the choices become
    [list_choose], and something is written. *)
Lemma loop_step choices line rest out :
  line <> "" ->
  exists out',
    loop self choices (line :: rest) out
    = loop self (list_choose self choices line) rest out'.
Proof.
  intros Hne. simpl. unfold list_choose.
  destruct line as [|c line]; [contradiction|]. simpl String.length. simpl Nat.eqb.
  destruct (int (String c line)) as [k|e]; [|eexists; reflexivity].
  destruct (k <? fst (__bounds self))%Z eqn:E1.
  { replace (fst (__bounds self) <=? k)%Z with false by lia. eexists. reflexivity. }
  replace (fst (__bounds self) <=? k)%Z with true by lia.
  destruct (k >? snd (__bounds self))%Z eqn:E2.
  { replace (k <=? snd (__bounds self))%Z with false by lia. eexists. reflexivity. }
  replace (k <=? snd (__bounds self))%Z with true by lia.
  simpl. destruct (__unique self && bool_decide (k ∈ choices)); simpl.
  - destruct (index choices k); eexists; reflexivity.
  - eexists. reflexivity.
Qed.

Lemma loop_empty_line choices rest out :
  loop self choices ("" :: rest) out
  = (Ok choices, Console rest (echo (__indent self ++ ">>> ") out)).
Proof. reflexivity. Qed.

(** The loop returns the choices collected up to the first empty line;
    without one, the end of the input raises [EOFError]. *)
Lemma loop_collected lines :
  forall choices out,
    fst (loop self choices lines out)
    = match collected self choices lines with
      | Some l => Ok l
      | None => Raise EOFError
      end.
Proof.
  induction lines as [|line rest IH]; intros choices out; [reflexivity|].
  cbn [collected]. destruct (String.eqb_spec line "") as [->|Hne]; [reflexivity|].
  destruct (loop_step choices line rest out Hne) as [out' ->]. apply IH.
Qed.

End FreeIntegerInputFacts.

(** One pass of the integer list loop, on [input]. *)
Lemma FreeIntegerInput_loop_unfold (self : FreeIntegerInput.t) (choices : list Z)
    (c : console) :
  FreeIntegerInput.loop self choices (stdin c) (stdout c)
  = match input (FreeIntegerInput.__indent self ++ ">>> ") c with
    | (Ok line, c') =>
        let again choices text :=
          FreeIntegerInput.loop self choices (stdin c') (print text (stdout c')) in
        if (String.length line =? 0)%nat then (Ok choices, c')
        else
          match int line with
          | Ok choice =>
              if (choice <? fst (FreeIntegerInput.__bounds self))%Z
                 || (choice >? snd (FreeIntegerInput.__bounds self))%Z
              then again choices (FreeIntegerInput.complaint self (str choice))
              else if FreeIntegerInput.__unique self && bool_decide (choice ∈ choices)
              then match index choices choice with
                   | Ok i => again choices (FreeIntegerInput.repeated self choice i)
                   | Raise _ => again choices (FreeIntegerInput.complaint self (str choice))
                   end
              else FreeIntegerInput.loop self (choices ++ [choice])%list
                     (stdin c') (stdout c')
          | Raise _ => again choices (FreeIntegerInput.complaint self line)
          end
    | (Raise e, c') => (Raise e, c')
    end.
Proof. destruct c as [[|line rest] out]; reflexivity. Qed.



(** * Further properties of the grid search *)

Section SearchMore.
Context `{Statsmodels}.
Import ARIMAWrapper.
Variables (self : t) (metrics : list metric).

(** The metric loop appends one score per metric, in their order. *)
Lemma append_metrics_scores (ms : list metric) y_true y_pred acc l :
  append_metrics ms y_true y_pred acc = Ok l ->
  exists vs, l = (acc ++ vs)%list /\
             Forall2 (fun m v => metric_call m y_true y_pred = Ok v) ms vs.
Proof.
  revert acc. induction ms as [|m ms IH]; intros acc; simpl.
  - intros [= <-]. exists []. split; [now rewrite app_nil_r|constructor].
  - destruct (metric_call m y_true y_pred) as [v|e] eqn:Hm; [|discriminate].
    intros Hrest. apply IH in Hrest as (vs & -> & Hvs).
    exists (v :: vs). split; [now rewrite <- app_assoc|]. now constructor.
Qed.

(** What a completed [try] block went through. *)
Lemma attempt_completed bounds o r model_fit :
  attempt self metrics bounds o = Ok (r, model_fit) ->
  exists model insample_pred outsample_fc,
    ARIMA_new (__train_target self) (__train_exog self) o = Ok model /\
    ARIMA_fit model = Ok model_fit /\
    predict model_fit = Ok insample_pred /\
    get_forecast model_fit (df_len (__forecast self)) (__forecast_exog self)
    = Ok outsample_fc /\
    (forall lo hi, bounds = Some (lo, hi) ->
       forall x, In x (insample_pred ++ predicted_mean outsample_fc)%list ->
                 num_lt x lo = false /\ num_gt x hi = false) /\
    append_metrics metrics (__train_target self) insample_pred [] = Ok (snd r) /\
    fst r = o.
Proof.
  unfold attempt, mbind, result_bind. intros Ha.
  destruct (ARIMA_new _ _ o) as [model|] eqn:Hm; [|discriminate].
  destruct (ARIMA_fit model) as [mf|] eqn:Hf; [|discriminate].
  destruct (predict mf) as [ins|] eqn:Hp; [|discriminate].
  destruct (get_forecast _ _ _) as [fc|] eqn:Hg; [|discriminate].
  destruct (match bounds with Some _ => _ | None => _ end) eqn:Hb; [discriminate|].
  destruct (append_metrics _ _ _ _) as [vs|] eqn:Hs; [|discriminate].
  injection Ha as <- <-.
  assert (Hin : forall lo hi, bounds = Some (lo, hi) ->
            forall x, In x (ins ++ predicted_mean fc)%list ->
                      num_lt x lo = false /\ num_gt x hi = false).
  { intros lo hi -> x Hx.
    eapply out_of_bounds_false, existsb_false; eassumption. }
  exists model, ins, fc. auto 10.
Qed.

(** Bounds only turn completing candidates into failing ones. *)
Lemma attempt_without_bounds b o x :
  attempt self metrics (Some b) o = Ok x -> attempt self metrics None o = Ok x.
Proof.
  unfold attempt, mbind, result_bind.
  destruct (ARIMA_new _ _ o) as [model|]; [|discriminate].
  destruct (ARIMA_fit model) as [mf|]; [|discriminate].
  destruct (predict mf) as [ins|]; [|discriminate].
  destruct (get_forecast _ _ _) as [fc|]; [|discriminate].
  destruct (existsb _ _); [discriminate|]. trivial.
Qed.

Lemma passing_without_bounds b o :
  passing self metrics (Some b) o = true -> passing self metrics None o = true.
Proof.
  unfold passing.
  destruct (attempt self metrics (Some b) o) as [x|e] eqn:Ha; [|discriminate].
  apply attempt_without_bounds in Ha. now rewrite Ha.
Qed.

Lemma row_of_with_bounds b o :
  row_of self metrics (Some b) o
  = if passing self metrics (Some b) o then row_of self metrics None o else None.
Proof.
  unfold row_of, passing.
  destruct (attempt self metrics (Some b) o) as [[r mf]|e] eqn:Ha; [|reflexivity].
  apply attempt_without_bounds in Ha. now rewrite Ha.
Qed.

Lemma row_of_order bounds o r :
  row_of self metrics bounds o = Some r -> fst r = o.
Proof.
  unfold row_of.
  destruct (attempt self metrics bounds o) as [[r' mf]|e] eqn:Ha; [|discriminate].
  intros [= <-]. eapply attempt_order. exact Ha.
Qed.

Lemma rows_with_bounds b l :
  omap (row_of self metrics (Some b)) l
  = List.filter (fun r => passing self metrics (Some b) (fst r))
      (omap (row_of self metrics None) l).
Proof.
  induction l as [|o l IH]; [reflexivity|].
  rewrite !omap_cons, row_of_with_bounds, IH.
  destruct (row_of self metrics None o) as [r|] eqn:Hr.
  - cbn [List.filter]. rewrite (row_of_order _ _ _ Hr).
    now destruct (passing self metrics (Some b) o).
  - now destruct (passing self metrics (Some b) o).
Qed.

(** X1.  When the search returns, which it does whenever the metrics
    have names, every row of the table carries one score per metric: the
    values the metrics return, in their order, on the training target and
    the in-sample prediction of the model fitted for the row's order. *)
Theorem exhaustive_search_row_scores
    (bounds : option (num * num)) (p_values d_values q_values : list Z)
    (return_models : bool) :
  Forall named metrics ->
  exists out,
    fst (exhaustive_search self p_values d_values q_values metrics bounds
           return_models) = Ok out /\
    forall r, In r (model_results out) ->
      length (snd r) = length metrics /\
      exists model model_fit insample_pred,
        ARIMA_new (__train_target self) (__train_exog self) (fst r) = Ok model /\
        ARIMA_fit model = Ok model_fit /\
        predict model_fit = Ok insample_pred /\
        Forall2 (fun m v => metric_call m (__train_target self) insample_pred = Ok v)
          metrics (snd r).
Proof.
  intros Hnamed. eexists. split; [now apply exhaustive_search_returns|].
  cbv zeta. cbn [model_results]. rewrite run_orders. simpl.
  intros r Hr. apply list_elem_of_In, list_elem_of_omap in Hr as (o & _ & Hrow).
  unfold row_of in Hrow.
  destruct (attempt self metrics bounds o) as [[r' mf]|e] eqn:Ha; [|discriminate].
  injection Hrow as ->.
  destruct (attempt_completed _ _ _ _ Ha)
    as (model & ins & fc & Hm & Hf & Hp & _ & _ & Hs & Ho).
  apply append_metrics_scores in Hs as (vs & Hvs & Hall). simpl in Hvs. subst vs.
  split; [symmetry; eapply Forall2_length; exact Hall|].
  exists model, mf, ins. rewrite Ho. auto.
Qed.

(** X2.  The passes printed in the status line count the rows of the
    table the search returns (it returns whenever the metrics have names),
    and there are never more rows than combinations. *)
Theorem exhaustive_search_table_length
    (bounds : option (num * num)) (p_values d_values q_values : list Z)
    (return_models : bool) :
  Forall named metrics ->
  let call :=
    exhaustive_search self p_values d_values q_values metrics bounds return_models in
  exists out reported_failures,
    fst call = Ok out /\
    status_line (snd call) = Some (length (model_results out), reported_failures) /\
    (length (model_results out)
     <= length p_values * length d_values * length q_values)%nat.
Proof.
  intros Hnamed call. subst call. eexists. eexists.
  split; [now apply exhaustive_search_returns|].
  rewrite exhaustive_search_shown. cbv zeta. cbn [model_results status_line].
  rewrite run_orders, run_passes. simpl.
  rewrite <- (length_map fst (omap (row_of self metrics bounds) _)).
  rewrite omap_row_of_order.
  split; [reflexivity|]. rewrite <- grid_length. apply List.filter_length_le.
Qed.

(** X3.  When one of the three candidate lists is empty, nothing is
    attempted: the progress bar is announced zero steps and never
    advanced, and the status line reports no pass and no failure.  The
    names of the metrics are read all the same: when each has one, the
    search returns a table without rows and without columns, and an empty
    dictionary when one is asked for; otherwise it raises. *)
Theorem exhaustive_search_empty_grid
    (bounds : option (num * num)) (p_values d_values q_values : list Z)
    (return_models : bool) :
  p_values = [] \/ d_values = [] \/ q_values = [] ->
  let call :=
    exhaustive_search self p_values d_values q_values metrics bounds return_models in
  snd call
  = {| steps_count := 0; tracker_updates := 0; status_line := Some (0, 0)%nat |} /\
  fst call
  = match metric_names metrics with
    | Ok _ =>
        Ok {| columns := []; model_results := [];
              returned_models := if return_models then Some ∅ else None |}
    | Raise e => Raise e
    end.
Proof.
  intros Hempty call. subst call.
  assert (Hlen : (length p_values * length d_values * length q_values = 0)%nat).
  { destruct Hempty as [-> | [-> | ->]]; simpl; lia. }
  assert (Hgrid : grid p_values d_values q_values = []).
  { apply length_zero_iff_nil. now rewrite grid_length. }
  split.
  - rewrite exhaustive_search_shown. cbv zeta. now rewrite Hgrid, Hlen.
  - unfold exhaustive_search. rewrite loops_run, Hgrid.
    destruct (metric_names metrics); reflexivity.
Qed.

(** X4.  Supplying bounds only removes rows: when the searches return
    (they do whenever the metrics have names), the table found with
    bounds is the table found without, restricted to the orders that
    complete under the bounds, rows and their order otherwise unchanged;
    and the status line with bounds reports no more passes and no fewer
    failures than the one without. *)
Theorem exhaustive_search_bounds_filter
    (lo hi : num) (p_values d_values q_values : list Z) (return_models : bool) :
  let bounded :=
    exhaustive_search self p_values d_values q_values metrics (Some (lo, hi))
      return_models in
  let free :=
    exhaustive_search self p_values d_values q_values metrics None return_models in
  (exists passes_b failures_b passes_f failures_f,
      status_line (snd bounded) = Some (passes_b, failures_b) /\
      status_line (snd free) = Some (passes_f, failures_f) /\
      (passes_b <= passes_f)%nat /\ (failures_f <= failures_b)%nat) /\
  (Forall named metrics ->
   exists out_bounded out_free,
     fst bounded = Ok out_bounded /\
     fst free = Ok out_free /\
     model_results out_bounded
     = List.filter (fun r => passing self metrics (Some (lo, hi)) (fst r))
         (model_results out_free)).
Proof.
  intros bounded free. subst bounded free. split.
  - eexists. eexists. eexists. eexists.
    rewrite !exhaustive_search_shown. cbv zeta. cbn [status_line].
    split; [reflexivity|]. split; [reflexivity|].
    rewrite !run_passes, !run_failures. simpl.
    set (g := grid p_values d_values q_values).
    assert (Hle : (length (List.filter (passing self metrics (Some (lo, hi))) g)
                   <= length (List.filter (passing self metrics None) g))%nat).
    { induction g as [|o g IH]; simpl; [lia|].
      destruct (passing self metrics (Some (lo, hi)) o) eqn:Hb.
      - rewrite (passing_without_bounds _ _ Hb). simpl. lia.
      - destruct (passing self metrics None o); simpl; lia. }
    split; [exact Hle|].
    pose proof (List.filter_length (passing self metrics (Some (lo, hi))) g).
    pose proof (List.filter_length (passing self metrics None) g). lia.
  - intros Hnamed. eexists. eexists.
    split; [now apply exhaustive_search_returns|].
    split; [now apply exhaustive_search_returns|].
    cbv zeta. cbn [model_results]. rewrite !run_orders. simpl.
    apply rows_with_bounds.
Qed.

(** X5.  Asking for the models changes neither what is shown on the
    console nor, when the searches return (they do whenever the metrics
    have names), the table and its column labels. *)
Theorem exhaustive_search_return_models_irrelevant
    (bounds : option (num * num)) (p_values d_values q_values : list Z) :
  snd (exhaustive_search self p_values d_values q_values metrics bounds true)
  = snd (exhaustive_search self p_values d_values q_values metrics bounds false) /\
  (Forall named metrics ->
   exists out_with out_without,
     fst (exhaustive_search self p_values d_values q_values metrics bounds true)
     = Ok out_with /\
     fst (exhaustive_search self p_values d_values q_values metrics bounds false)
     = Ok out_without /\
     model_results out_with = model_results out_without /\
     columns out_with = columns out_without).
Proof.
  split.
  - rewrite !exhaustive_search_shown. cbv zeta.
    now rewrite !run_passes, !run_failures, !run_tracker.
  - intros Hnamed. eexists. eexists.
    split; [now apply exhaustive_search_returns|].
    split; [now apply exhaustive_search_returns|].
    cbv zeta. cbn [model_results columns]. now rewrite !run_orders.
Qed.

Lemma NoDup_grid (p_values d_values q_values : list Z) :
  NoDup p_values -> NoDup d_values -> NoDup q_values ->
  NoDup (grid p_values d_values q_values).
Proof.
  intros Hp Hd Hq. unfold grid.
  apply NoDup_bind; [| |exact Hp].
  - intros p1 p2 o _ _ H1 H2.
    apply list_elem_of_bind in H1 as (d1 & H1 & _).
    apply list_elem_of_bind in H1 as (q1 & H1 & _).
    apply list_elem_of_bind in H2 as (d2 & H2 & _).
    apply list_elem_of_bind in H2 as (q2 & H2 & _).
    apply list_elem_of_singleton in H1, H2. congruence.
  - intros p _. apply NoDup_bind; [| |exact Hd].
    + intros d1 d2 o _ _ H1 H2.
      apply list_elem_of_bind in H1 as (q1 & H1 & _).
      apply list_elem_of_bind in H2 as (q2 & H2 & _).
      apply list_elem_of_singleton in H1, H2. congruence.
    + intros d _. apply NoDup_bind; [| |exact Hq].
      * intros q1 q2 o _ _ H1 H2.
        apply list_elem_of_singleton in H1, H2. congruence.
      * intros q _. apply NoDup_singleton.
Qed.

(** X6.  When no candidate list repeats a value and the search returns
    (it does whenever the metrics have names), the dictionary returned
    with the table holds one model per row: its size is the number of rows
    and the number of passes in the status line, and no order occurs in
    two rows. *)
Theorem exhaustive_search_models_size
    (bounds : option (num * num)) (p_values d_values q_values : list Z) :
  NoDup p_values -> NoDup d_values -> NoDup q_values ->
  Forall named metrics ->
  let call :=
    exhaustive_search self p_values d_values q_values metrics bounds true in
  exists out fitted reported_failures,
    fst call = Ok out /\
    returned_models out = Some fitted /\
    NoDup (map fst (model_results out)) /\
    size fitted = length (model_results out) /\
    status_line (snd call) = Some (size fitted, reported_failures).
Proof.
  intros Hp Hd Hq Hnamed call. subst call.
  assert (Hnd : NoDup (List.filter (passing self metrics bounds)
                         (grid p_values d_values q_values))).
  { apply NoDup_ListNoDup, List.NoDup_filter, NoDup_ListNoDup.
    now apply NoDup_grid. }
  assert (Hsize : size (models (run self metrics bounds true
                                  (grid p_values d_values q_values) search_init))
                  = length (List.filter (passing self metrics bounds)
                              (grid p_values d_values q_values))).
  { rewrite <- size_dom, run_models_dom. simpl.
    now rewrite dom_empty_L, (left_id_L ∅ (∪)), (size_list_to_set _ Hnd). }
  eexists. eexists. eexists. split; [now apply exhaustive_search_returns|].
  rewrite exhaustive_search_shown. cbv zeta.
  cbn [model_results returned_models status_line].
  split; [reflexivity|]. rewrite run_orders, run_passes, Hsize. simpl.
  rewrite omap_row_of_order. split; [exact Hnd|].
  rewrite <- (length_map fst (omap (row_of self metrics bounds) _)).
  rewrite omap_row_of_order. split; reflexivity.
Qed.

(** X7.  A model returned by the search (which returns whenever the
    metrics have names) can be handed to [forecast_with] of the same
    wrapper: none of the selections raises, and the full forecast is the
    combined prediction the search checked, so with bounds supplied every
    value of it lies within them. *)
Theorem exhaustive_search_models_forecast
    (bounds : option (num * num)) (p_values d_values q_values : list Z) :
  Forall named metrics ->
  exists out fitted,
    fst (exhaustive_search self p_values d_values q_values metrics bounds true)
    = Ok out /\
    returned_models out = Some fitted /\
    forall o model_fit, fitted !! o = Some model_fit ->
      (forall forecast, is_ok (forecast_with self model_fit forecast) = true) /\
      exists full_pred,
        forecast_with self model_fit "full" = Ok (Full full_pred) /\
        full_prediction self o = Ok full_pred /\
        forall lo hi, bounds = Some (lo, hi) ->
          forall x, In x full_pred -> num_lt x lo = false /\ num_gt x hi = false.
Proof.
  intros Hnamed. eexists. eexists. split; [now apply exhaustive_search_returns|].
  cbv zeta. cbn [returned_models].
  split; [reflexivity|]. intros o mf Hl.
  apply run_models_lookup in Hl as [Hl|[r Ha]].
  { simpl in Hl. rewrite lookup_empty in Hl. discriminate. }
  destruct (attempt_completed _ _ _ _ Ha)
    as (model & ins & fc & Hm & Hf & Hp & Hg & Hin & _ & _).
  split.
  - intros forecast. unfold forecast_with, mbind, result_bind. rewrite Hp, Hg.
    destruct (forecast =? "insample")%string; [reflexivity|].
    destruct (forecast =? "outsample")%string; [reflexivity|].
    destruct (forecast =? "full")%string; reflexivity.
  - exists (ins ++ predicted_mean fc)%list. split; [|split; [|exact Hin]].
    + unfold forecast_with, mbind, result_bind. now rewrite Hp, Hg.
    + unfold full_prediction, mbind, result_bind. now rewrite Hm, Hf, Hp, Hg.
Qed.

(** X8.  Every order of the table the search returns (it returns
    whenever the metrics have names) can be built and fitted again on the
    same data: [reconstruct] on it returns a model when [fit] is off and a
    fitted model when it is on, without raising. *)
Theorem exhaustive_search_rows_reconstruct
    (bounds : option (num * num)) (p_values d_values q_values : list Z)
    (return_models : bool) :
  Forall named metrics ->
  exists out,
    fst (exhaustive_search self p_values d_values q_values metrics bounds
           return_models) = Ok out /\
    forall r, In r (model_results out) ->
      exists model model_fit,
        reconstruct self (fst r) false = Ok (Unfitted model) /\
        reconstruct self (fst r) true = Ok (Fitted model_fit).
Proof.
  intros Hnamed. eexists. split; [now apply exhaustive_search_returns|].
  cbv zeta. cbn [model_results]. rewrite run_orders. simpl.
  intros r Hr. apply list_elem_of_In, list_elem_of_omap in Hr as (o & Hgrid & Hrow).
  pose proof (row_of_order _ _ _ Hrow) as Ho. unfold row_of in Hrow.
  destruct (attempt self metrics bounds o) as [[r' mf]|e] eqn:Ha; [|discriminate].
  injection Hrow as ->. rewrite Ho.
  destruct (attempt_completed _ _ _ _ Ha) as (model & ins & fc & Hm & Hf & _).
  exists model, mf. unfold reconstruct, mbind, result_bind. rewrite Hm, Hf.
  split; reflexivity.
Qed.

(** X9.  An order that [reconstruct] raises on is counted as a failure
    by every iteration of the search on the same wrapper, and is never a
    row of the table the search returns (it returns whenever the metrics
    have names), whatever lists and bounds it is run with. *)
Theorem reconstruct_raises_no_row
    (order : Z * Z * Z) (fit : bool) (e : exn)
    (bounds : option (num * num)) (p_values d_values q_values : list Z)
    (return_models : bool) :
  reconstruct self order fit = Raise e ->
  passing self metrics bounds order = false /\
  (Forall named metrics ->
   exists out,
     fst (exhaustive_search self p_values d_values q_values metrics bounds
            return_models) = Ok out /\
     ~ In order (map fst (model_results out))).
Proof.
  intros Hrec.
  assert (Hfail : passing self metrics bounds order = false).
  { apply raises_at_passing. destruct order as [[p d] q].
    unfold reconstruct, mbind, result_bind in Hrec.
    destruct (ARIMA_new _ _ (p, d, q)) as [model|e'] eqn:Hm;
      [|eapply at_construction; exact Hm].
    destruct fit; [|discriminate].
    destruct (ARIMA_fit model) as [mf|e'] eqn:Hf; [discriminate|].
    eapply at_fit; eassumption. }
  split; [exact Hfail|].
  intros Hnamed. eexists. split; [now apply exhaustive_search_returns|].
  cbv zeta. cbn [model_results]. rewrite run_orders. simpl.
  rewrite omap_row_of_order. intros Hin. apply filter_In in Hin as [_ Hpass].
  congruence.
Qed.

(** X23.  The search over a list of [p] values put together from two
    lists is the two searches one after the other: the passes and the
    failures of the status lines add up, and when the searches return
    (they do whenever the metrics have names) the table is the table of
    the first followed by the table of the second. *)
Theorem exhaustive_search_split_p
    (bounds : option (num * num)) (p_first p_second d_values q_values : list Z)
    (return_models : bool) :
  let whole :=
    exhaustive_search self (p_first ++ p_second) d_values q_values metrics bounds
      return_models in
  let first :=
    exhaustive_search self p_first d_values q_values metrics bounds return_models in
  let second :=
    exhaustive_search self p_second d_values q_values metrics bounds return_models in
  (exists passes1 failures1 passes2 failures2,
      status_line (snd first) = Some (passes1, failures1) /\
      status_line (snd second) = Some (passes2, failures2) /\
      status_line (snd whole)
      = Some (passes1 + passes2, failures1 + failures2)%nat) /\
  (Forall named metrics ->
   exists out out_first out_second,
     fst whole = Ok out /\ fst first = Ok out_first /\ fst second = Ok out_second /\
     model_results out = (model_results out_first ++ model_results out_second)%list).
Proof.
  intros whole first second. subst whole first second.
  assert (Hgrid : grid (p_first ++ p_second) d_values q_values
                  = (grid p_first d_values q_values
                     ++ grid p_second d_values q_values)%list)
    by apply bind_app.
  split.
  - eexists. eexists. eexists. eexists.
    rewrite !exhaustive_search_shown. cbv zeta. cbn [status_line].
    split; [reflexivity|]. split; [reflexivity|].
    rewrite !run_passes, !run_failures. simpl.
    now rewrite Hgrid, !List.filter_app, !length_app.
  - intros Hnamed. eexists. eexists. eexists.
    split; [now apply exhaustive_search_returns|].
    split; [now apply exhaustive_search_returns|].
    split; [now apply exhaustive_search_returns|].
    cbv zeta. cbn [model_results]. rewrite !run_orders. simpl.
    now rewrite Hgrid, omap_app.
Qed.

(** X24.  The column labels are read from the metrics after the loops
    and the status line, outside any [try]: when each metric has a
    [__name__] the search returns, and a table with rows is labelled
    ['Order'] followed by the names in the order of the metrics; when one
    has none the search raises [AttributeError], the status line having
    been printed; and it raises nothing else, whatever the candidates
    raise. *)
Theorem exhaustive_search_column_labels
    (bounds : option (num * num)) (p_values d_values q_values : list Z)
    (return_models : bool) :
  let call :=
    exhaustive_search self p_values d_values q_values metrics bounds return_models in
  (Forall named metrics ->
   exists out,
     fst call = Ok out /\
     (model_results out <> [] -> columns out = "Order" :: omap __name__ metrics) /\
     (model_results out = [] -> columns out = [])) /\
  (forall m, In m metrics -> __name__ m = None ->
     fst call = Raise AttributeError /\ status_line (snd call) <> None) /\
  (forall e, fst call = Raise e ->
     e = AttributeError /\ exists m, In m metrics /\ __name__ m = None).
Proof.
  intros call. subst call. split; [|split].
  - intros Hnamed. eexists. split; [now apply exhaustive_search_returns|].
    cbv zeta. cbn [model_results columns].
    destruct (orders _); split; intros; simpl; congruence.
  - intros m Hin Hm.
    rewrite exhaustive_search_shown. cbv zeta. cbn [status_line].
    split; [|discriminate].
    destruct (fst (exhaustive_search self p_values d_values q_values metrics bounds
                     return_models)) as [out|e] eqn:Hcall.
    + exfalso. unfold exhaustive_search in Hcall. rewrite loops_run in Hcall.
      destruct (metric_names metrics) as [names|e] eqn:Hnames; [|discriminate].
      apply metric_names_ok in Hnames.
      rewrite Forall_forall in Hnames.
      destruct (Hnames m) as [name Hname]; [now apply list_elem_of_In|].
      congruence.
    + apply exhaustive_search_raises in Hcall as [-> _]. reflexivity.
  - intros e. apply exhaustive_search_raises.
Qed.

End SearchMore.

Lemma exhaustive_search_row_scores_witness :
  exists out,
    fst (@ARIMAWrapper.exhaustive_search toy toy_self [0; 1]%Z [0; 2]%Z [1; 7; 3]%Z
           [toy_metric] (Some (0, 20)%Z) false) = Ok out /\
    forall r, In r (ARIMAWrapper.model_results out) -> length (snd r) = 1%nat.
Proof.
  destruct (@exhaustive_search_row_scores toy toy_self [toy_metric]
              (Some (0, 20)%Z) [0; 1]%Z [0; 2]%Z [1; 7; 3]%Z false toy_named)
    as (out & Hsearch & Hrows).
  exists out. split; [exact Hsearch|]. intros r Hr. now apply Hrows.
Defined.

Lemma exhaustive_search_table_length_witness :
  exists out reported_failures,
    fst (@ARIMAWrapper.exhaustive_search toy toy_self [0; 1]%Z [0; 2]%Z [1; 7; 3]%Z
           [toy_metric] (Some (0, 20)%Z) false) = Ok out /\
    ARIMAWrapper.status_line
      (snd (@ARIMAWrapper.exhaustive_search toy toy_self [0; 1]%Z [0; 2]%Z [1; 7; 3]%Z
              [toy_metric] (Some (0, 20)%Z) false))
    = Some (length (ARIMAWrapper.model_results out), reported_failures).
Proof.
  destruct (@exhaustive_search_table_length toy toy_self [toy_metric]
              (Some (0, 20)%Z) [0; 1]%Z [0; 2]%Z [1; 7; 3]%Z false toy_named)
    as (out & failures & Hsearch & Hline & _).
  exists out, failures. split; [exact Hsearch|exact Hline].
Defined.

Lemma exhaustive_search_empty_grid_witness :
  @ARIMAWrapper.exhaustive_search toy toy_self [0; 1]%Z [] [1; 7; 3]%Z
    [toy_metric; toy_partial] None true
  = (Raise AttributeError, ARIMAWrapper.Build_search_shown 0 0 (Some (0, 0)%nat)).
Proof.
  destruct (@exhaustive_search_empty_grid toy toy_self [toy_metric; toy_partial] None
              [0; 1]%Z [] [1; 7; 3]%Z true) as (Hshown & Hcall).
  { right. left. reflexivity. }
  rewrite (surjective_pairing (ARIMAWrapper.exhaustive_search _ _ _ _ _ _ _)).
  rewrite Hshown, Hcall. reflexivity.
Defined.

Lemma exhaustive_search_models_size_witness :
  exists out fitted,
    fst (@ARIMAWrapper.exhaustive_search toy toy_self [0; 1]%Z [0; 2]%Z [1; 7; 3]%Z
           [toy_metric] (Some (0, 20)%Z) true) = Ok out /\
    ARIMAWrapper.returned_models out = Some fitted /\
    size fitted = length (ARIMAWrapper.model_results out).
Proof.
  destruct (@exhaustive_search_models_size toy toy_self [toy_metric] (Some (0, 20)%Z)
              [0; 1]%Z [0; 2]%Z [1; 7; 3]%Z)
    as (out & fitted & failures & Hs & Hm & _ & Hsize & _).
  - apply NoDup_ListNoDup. repeat constructor; simpl; intuition discriminate.
  - apply NoDup_ListNoDup. repeat constructor; simpl; intuition discriminate.
  - apply NoDup_ListNoDup. repeat constructor; simpl; intuition discriminate.
  - exact toy_named.
  - exists out, fitted. auto.
Defined.

Lemma exhaustive_search_models_forecast_witness :
  exists out fitted,
    fst (@ARIMAWrapper.exhaustive_search toy toy_self [0; 1]%Z [0; 2]%Z [1; 7; 3]%Z
           [toy_metric] (Some (0, 20)%Z) true) = Ok out /\
    ARIMAWrapper.returned_models out = Some fitted /\
    forall o model_fit, fitted !! o = Some model_fit ->
      forall forecast,
        is_ok (@ARIMAWrapper.forecast_with toy toy_self model_fit forecast) = true.
Proof.
  destruct (@exhaustive_search_models_forecast toy toy_self [toy_metric]
              (Some (0, 20)%Z) [0; 1]%Z [0; 2]%Z [1; 7; 3]%Z toy_named)
    as (out & fitted & Hs & Hm & Hall).
  exists out, fitted. split; [exact Hs|]. split; [exact Hm|].
  intros o mf Hl. now apply (Hall o mf Hl).
Defined.

Lemma exhaustive_search_rows_reconstruct_witness :
  exists out,
    fst (@ARIMAWrapper.exhaustive_search toy toy_self [0; 1]%Z [0; 2]%Z [1; 7; 3]%Z
           [toy_metric] (Some (0, 20)%Z) false) = Ok out /\
    forall r, In r (ARIMAWrapper.model_results out) ->
      exists model_fit,
        @ARIMAWrapper.reconstruct toy toy_self (fst r) true
        = Ok (ARIMAWrapper.Fitted model_fit).
Proof.
  destruct (@exhaustive_search_rows_reconstruct toy toy_self [toy_metric]
              (Some (0, 20)%Z) [0; 1]%Z [0; 2]%Z [1; 7; 3]%Z false toy_named)
    as (out & Hs & Hall).
  exists out. split; [exact Hs|]. intros r Hr.
  destruct (Hall r Hr) as (model & mf & _ & Hfit). now exists mf.
Defined.

Lemma reconstruct_raises_no_row_witness :
  @ARIMAWrapper.reconstruct toy toy_self (0, 2, 1)%Z true
  = Raise (LibraryError "LinAlgError") /\
  exists out,
    fst (@ARIMAWrapper.exhaustive_search toy toy_self [0; 1]%Z [0; 2]%Z [1; 7; 3]%Z
           [toy_metric] None false) = Ok out /\
    ~ In (0, 2, 1)%Z (map fst (ARIMAWrapper.model_results out)).
Proof.
  split; [reflexivity|].
  destruct (@reconstruct_raises_no_row toy toy_self [toy_metric] (0, 2, 1)%Z true
              (LibraryError "LinAlgError") None [0; 1]%Z [0; 2]%Z [1; 7; 3]%Z false
              eq_refl) as (_ & Hret).
  exact (Hret toy_named).
Defined.

(** * Further properties of [parse_order] *)

Lemma slice_ends (a b : ascii) (body : string) :
  slice (String a (body ++ String b "")) 1 (-1) = body.
Proof.
  unfold slice, slice_index. simpl String.length. rewrite length_append. simpl String.length.
  set (n := String.length body).
  change (1 <? 0)%Z with false. change (-1 <? 0)%Z with true. cbv iota.
  replace (Z.to_nat (Z.min (Z.of_nat (S (n + 1))) (Z.max 0 1))) with 1%nat by lia.
  replace (Z.to_nat (Z.min (Z.of_nat (S (n + 1))) (Z.max 0 (-1 + Z.of_nat (S (n + 1))))))
    with (S n) by lia.
  replace (S n - 1)%nat with n by lia.
  simpl. apply substring_0_append.
Qed.

(** X10.  [parse_order] does not look at the first and the last
    character: whatever they are, they are dropped and what lies between
    them is split at [", "]. *)
Theorem parse_order_any_ends (a b : ascii) (body : string) :
  ARIMAWrapper.parse_order (String a (body ++ String b ""))
  = PyListOfStr (split body ", ").
Proof. unfold ARIMAWrapper.parse_order. now rewrite slice_ends. Qed.

(** X11.  On a string of at most two characters nothing is left between
    the ends, and the result is the list holding the empty string. *)
Theorem parse_order_short (order : string) :
  (String.length order <= 2)%nat ->
  ARIMAWrapper.parse_order order = PyListOfStr [""].
Proof.
  intros Hlen. destruct order as [|a [|b [|c rest]]]; try reflexivity.
  simpl in Hlen. lia.
Qed.

Lemma parse_order_short_witness :
  ARIMAWrapper.parse_order "()" = PyListOfStr [""].
Proof. apply (parse_order_short "()"). simpl. lia. Defined.

Lemma split_go_nonempty sep skip cur s : split_go sep skip cur s <> [].
Proof.
  revert skip cur. induction s as [|c s IH]; intros skip cur; [discriminate|].
  cbn [split_go]. destruct skip; [|apply IH].
  destruct (String.prefix sep (String c s)); [discriminate|apply IH].
Qed.

Lemma join_cons sep piece rest :
  rest <> [] -> join sep (piece :: rest) = piece ++ sep ++ join sep rest.
Proof. destruct rest; [contradiction|reflexivity]. Qed.

Lemma string_of_list_ascii_snoc (l : list ascii) (c : ascii) (s : string) :
  string_of_list_ascii (l ++ [c]) ++ s = string_of_list_ascii l ++ String c s.
Proof. induction l as [|x l IH]; simpl; [reflexivity|]. now rewrite IH. Qed.

(** Joining the pieces with the separator gives back what was split. *)
Lemma join_split_go (n : nat) :
  forall s cur, (String.length s <= n)%nat ->
    join ", " (split_go ", " 0 cur s) = string_of_list_ascii (rev cur) ++ s.
Proof.
  induction n as [|n IH]; intros s cur Hlen.
  { destruct s; [|simpl in Hlen; lia]. simpl. now rewrite append_nil_r. }
  destruct s as [|c s]; [simpl; now rewrite append_nil_r|].
  simpl in Hlen.
  assert (Hother : join ", " (split_go ", " 0 (c :: cur) s)
                   = string_of_list_ascii (rev cur) ++ String c s).
  { rewrite IH by lia. cbn [rev]. apply string_of_list_ascii_snoc. }
  cbn [split_go String.prefix].
  destruct (Ascii.ascii_dec "," c) as [<-|_]; [|exact Hother].
  destruct s as [|c2 s]; cbn [String.prefix]; [exact Hother|].
  destruct (Ascii.ascii_dec " " c2) as [<-|_]; [|exact Hother].
  assert (Hpre : String.prefix "" s = true) by (destruct s; reflexivity).
  rewrite Hpre. cbn [String.length Nat.sub split_go].
  rewrite join_cons by apply split_go_nonempty.
  simpl in Hlen. rewrite IH by lia. reflexivity.
Qed.

(** X12.  [parse_order] loses nothing but the two ends: it returns at
    least one piece, and the pieces joined with [", "] are the string
    between the first and the last character. *)
Theorem parse_order_join (order : string) :
  exists pieces,
    ARIMAWrapper.parse_order order = PyListOfStr pieces /\
    pieces <> [] /\
    join ", " pieces = slice order 1 (-1).
Proof.
  exists (split (slice order 1 (-1)) ", "). split; [reflexivity|].
  split; [apply split_go_nonempty|].
  unfold split. now rewrite (join_split_go _ _ [] (le_n _)).
Qed.

(** * Further properties of the forecast accessor *)

(** X13.  [forecast_with] computes both predictions before it looks at
    the selection: when the out-of-sample forecast raises, asking for the
    in-sample prediction raises too, and when the in-sample prediction
    raises, so does asking for the out-of-sample forecast. *)
Theorem forecast_with_raises_before_selection `{Statsmodels}
    (self : ARIMAWrapper.t) (model_fit : ARIMAResults) (e : exn) :
  predict model_fit = Raise e \/
  (is_ok (predict model_fit) = true /\
   get_forecast model_fit (df_len (ARIMAWrapper.__forecast self))
     (ARIMAWrapper.__forecast_exog self) = Raise e) ->
  ARIMAWrapper.forecast_with self model_fit "insample" = Raise e /\
  ARIMAWrapper.forecast_with self model_fit "outsample" = Raise e /\
  ARIMAWrapper.forecast_with self model_fit "full" = Raise e.
Proof. intros Hraise. repeat split; now apply forecast_with_propagates. Qed.

Lemma forecast_with_raises_before_selection_witness :
  @ARIMAWrapper.forecast_with toy toy_self (0, 0, 7)%Z "insample" = Raise ValueError.
Proof.
  apply (@forecast_with_raises_before_selection toy toy_self (0, 0, 7)%Z ValueError).
  right. split; reflexivity.
Defined.

(** * Further properties of the prompts *)

Section OptionsListMore.
Import OptionsList.
Variable self : t.

Lemma loop_returns_first lines :
  forall out k c',
    loop self lines out = (Ok k, c') ->
    exists rejected line,
      lines = (rejected ++ line :: stdin c')%list /\
      Forall (fun l => forall k', ~ option_choice self l k') rejected /\
      option_choice self line k.
Proof.
  induction lines as [|line rest IH]; intros out k c' Hloop; [discriminate|].
  simpl in Hloop. destruct (int line) as [choice|e] eqn:Hint.
  - destruct ((choice <? 1)%Z || (choice >? Z.of_nat (length (__options self)))%Z)
      eqn:Hrange.
    + apply IH in Hloop as (rejected & line' & -> & Hrej & Hacc).
      exists (line :: rejected), line'. split; [reflexivity|]. split; [|exact Hacc].
      constructor; [|exact Hrej]. intros k' [Hk' Hin].
      rewrite Hint in Hk'. injection Hk' as <-.
      apply orb_true_iff in Hrange as [Hlt|Hgt]; lia.
    + injection Hloop as <- <-. exists [], line. split; [reflexivity|].
      split; [constructor|]. apply orb_false_iff in Hrange as [Hlt Hgt].
      split; [exact Hint|lia].
  - apply IH in Hloop as (rejected & line' & -> & Hrej & Hacc).
    exists (line :: rejected), line'. split; [reflexivity|]. split; [|exact Hacc].
    constructor; [|exact Hrej]. intros k' [Hk' _]. congruence.
Qed.

Lemma loop_all_rejected lines :
  Forall (fun l => forall k, ~ option_choice self l k) lines ->
  forall out, exists out', loop self lines out = (Raise EOFError, Console [] out').
Proof.
  induction 1 as [|line rest Hline _ IH]; intros out; [eexists; reflexivity|].
  destruct (loop_rejects self line rest out Hline) as [got ->]. apply IH.
Qed.

Lemma print_options_lines (i : nat) (options out : list string) :
  print_options (__indent self) i options out
  = (out ++ imap (fun j => option_line self (i + j)) options)%list.
Proof.
  revert i out. induction options as [|option rest IH]; intros i out.
  - simpl. now rewrite app_nil_r.
  - cbn [print_options]. rewrite IH, imap_cons. unfold print at 1.
    rewrite <- app_assoc. cbn [app]. do 2 f_equal.
    + unfold option_line. rewrite Nat.add_0_r. now rewrite !append_assoc.
    + apply imap_ext. intros j x _. simpl. f_equal. lia.
Qed.

End OptionsListMore.

(** X14.  Whatever is typed, a number returned by the multiple-choice
    prompt lies between 1 and the number of options and so names one of
    them; it is the choice of the first line the prompt accepts, every
    line before it was rejected, and the lines after it are left unread. *)
Theorem OptionsList_prompt_returns
    (self : OptionsList.t) (c c' : console) (k : Z) :
  OptionsList.prompt self c = (Ok k, c') ->
  (1 <= k <= Z.of_nat (length (OptionsList.__options self)))%Z /\
  is_Some (OptionsList.__options self !! Z.to_nat (k - 1)) /\
  exists rejected line,
    stdin c = (rejected ++ line :: stdin c')%list /\
    Forall (fun l => forall k', ~ option_choice self l k') rejected /\
    option_choice self line k.
Proof.
  unfold OptionsList.prompt. intros Hloop.
  apply loop_returns_first in Hloop as (rejected & line & Hlines & Hrej & Hacc).
  assert (Hk : (1 <= k <= Z.of_nat (length (OptionsList.__options self)))%Z)
    by apply Hacc.
  split; [exact Hk|]. split; [apply lookup_lt_is_Some; lia|].
  exists rejected, line. auto.
Qed.

Lemma OptionsList_prompt_returns_witness :
  (1 <= 2 <= Z.of_nat (length ["a"; "b"; "c"]))%Z.
Proof.
  apply (OptionsList_prompt_returns (OptionsList.__init__ "Pick" ["a"; "b"; "c"] 0)
           (Console ["9"; "x"; "2"; "1"] [])
           (snd (OptionsList.prompt (OptionsList.__init__ "Pick" ["a"; "b"; "c"] 0)
                   (Console ["9"; "x"; "2"; "1"] [])))
           2%Z).
  reflexivity.
Defined.

(** X15.  When none of the lines is acceptable, the multiple-choice
    prompt reads them all and ends with [EOFError]; it returns no number.
    With an empty list of options this is so for every input. *)
Theorem OptionsList_prompt_no_choice :
  (forall self c,
      Forall (fun l => forall k, ~ option_choice self l k) (stdin c) ->
      exists out', OptionsList.prompt self c = (Raise EOFError, Console [] out')) /\
  (forall text indent c,
      exists out',
        OptionsList.prompt (OptionsList.__init__ text [] indent) c
        = (Raise EOFError, Console [] out')).
Proof.
  split.
  - intros self c Hall. now apply loop_all_rejected.
  - intros text indent c. apply loop_all_rejected.
    apply Forall_forall. intros line _ k [_ Hk]. simpl in Hk. lia.
Qed.

(** X16.  One pass of the multiple-choice prompt writes the question,
    then every option once, in order and numbered from 1, then the input
    marker: [N + 2] texts for [N] options. *)
Theorem OptionsList_show_lines (self : OptionsList.t) (out : list string) :
  OptionsList.show self out
  = (out ++ [(OptionsList.__indent self ++ OptionsList._prompt self ++ NL)%string]
         ++ imap (option_line self) (OptionsList.__options self)
         ++ [(OptionsList.__indent self ++ ">>> ")%string])%list /\
  length (OptionsList.show self out)
  = (length out + length (OptionsList.__options self) + 2)%nat.
Proof.
  assert (Hshow : OptionsList.show self out
    = (out ++ [(OptionsList.__indent self ++ OptionsList._prompt self ++ NL)%string]
           ++ imap (option_line self) (OptionsList.__options self)
           ++ [(OptionsList.__indent self ++ ">>> ")%string])%list).
  { unfold OptionsList.show, echo. rewrite print_options_lines. unfold print.
    rewrite append_assoc, <- !app_assoc. reflexivity. }
  split; [exact Hshow|]. rewrite Hshow, !length_app, length_imap. simpl. lia.
Qed.

Section YesNoPromptMore.
Import YesNoPrompt.
Variable self : t.

Lemma yes_no_first rejected line rest :
  Forall (fun l => lower l <> "y" /\ lower l <> "n") rejected ->
  lower line = "y" \/ lower line = "n" ->
  forall out, exists out',
    loop self (rejected ++ line :: rest) out
    = (Ok (lower line =? "y")%string, Console rest out') /\
    length out' = (length out + 2 * length rejected + 1)%nat.
Proof.
  intros Hrej Hans. induction Hrej as [|l ls [Hy Hn] _ IH]; intros out.
  - eexists. split.
    + simpl. destruct Hans as [-> | ->]; reflexivity.
    + unfold echo. rewrite length_app. simpl. lia.
  - apply String.eqb_neq in Hy, Hn.
    destruct (IH (print (complaint self (lower l))
                    (echo (__indent self ++ _prompt self) out))) as (out' & Hloop & Hlen).
    exists out'. split.
    + simpl. rewrite Hy, Hn. exact Hloop.
    + rewrite Hlen. unfold print, echo. rewrite !length_app. simpl. lia.
Qed.

Lemma yes_no_never lines :
  Forall (fun l => lower l <> "y" /\ lower l <> "n") lines ->
  forall out, exists out',
    loop self lines out = (Raise EOFError, Console [] out') /\
    length out' = (length out + 2 * length lines + 1)%nat.
Proof.
  induction 1 as [|l ls [Hy Hn] _ IH]; intros out.
  - eexists. split; [reflexivity|]. unfold echo. rewrite length_app. simpl. lia.
  - apply String.eqb_neq in Hy, Hn.
    destruct (IH (print (complaint self (lower l))
                    (echo (__indent self ++ _prompt self) out))) as (out' & Hloop & Hlen).
    exists out'. split.
    + simpl. rewrite Hy, Hn. exact Hloop.
    + rewrite Hlen. unfold print, echo. rewrite !length_app. simpl. lia.
Qed.

End YesNoPromptMore.

(** X17.  The yes/no prompt is decided by the first line that is a "y"
    or an "n" in either case: the lines before it are each answered with
    one complaint after one display of the question, the lines after it
    are left unread, and the result is [True] exactly for a "y".  When no
    line is such an answer, all of them are read and the prompt ends with
    [EOFError]. *)
Theorem YesNoPrompt_first_answer :
  (forall self rejected line rest out,
      Forall (fun l => lower l <> "y" /\ lower l <> "n") rejected ->
      lower line = "y" \/ lower line = "n" ->
      exists out',
        YesNoPrompt.prompt self (Console (rejected ++ line :: rest) out)
        = (Ok (lower line =? "y")%string, Console rest out') /\
        length out' = (length out + 2 * length rejected + 1)%nat) /\
  (forall self lines out,
      Forall (fun l => lower l <> "y" /\ lower l <> "n") lines ->
      exists out',
        YesNoPrompt.prompt self (Console lines out)
        = (Raise EOFError, Console [] out') /\
        length out' = (length out + 2 * length lines + 1)%nat).
Proof.
  split.
  - intros. now apply yes_no_first.
  - intros. now apply yes_no_never.
Qed.

Lemma YesNoPrompt_first_answer_witness :
  exists out',
    YesNoPrompt.prompt (YesNoPrompt.__init__ "Go on?" 0)
      (Console (["maybe"; "yes"] ++ "N" :: ["y"]) [])
    = (Ok false, Console ["y"] out') /\
    length out' = 5%nat.
Proof.
  destruct YesNoPrompt_first_answer as [Hfirst _].
  apply (Hfirst (YesNoPrompt.__init__ "Go on?" 0) ["maybe"; "yes"] "N" ["y"] []).
  - repeat constructor; discriminate.
  - right. reflexivity.
Defined.

Lemma rstrip_append (a b : string) :
  rstrip b <> "" -> rstrip (a ++ b) = a ++ rstrip b.
Proof.
  intros Hb. induction a as [|c a IH]; [reflexivity|].
  simpl. rewrite IH. destruct (a ++ rstrip b) eqn:E; [|reflexivity].
  destruct a; simpl in E; [contradiction|discriminate].
Qed.

Lemma endswith_append (a b : string) : endswith (a ++ b) b = true.
Proof.
  induction a as [|c a IH]; simpl.
  - destruct b; simpl; [reflexivity|]. now rewrite Ascii.eqb_refl, String.eqb_refl.
  - rewrite IH. apply orb_true_r.
Qed.

(** X18.  Mending the text of a yes/no prompt is idempotent: the text a
    prompt ends up with passes the test of the constructor, so building a
    prompt from it appends nothing more. *)
Theorem YesNoPrompt_init_idempotent (text : string) (indent indent' : nat) :
  endswith (rstrip (YesNoPrompt._prompt (YesNoPrompt.__init__ text indent))) "(y/n):"
  = true /\
  YesNoPrompt._prompt
    (YesNoPrompt.__init__ (YesNoPrompt._prompt (YesNoPrompt.__init__ text indent)) indent')
  = YesNoPrompt._prompt (YesNoPrompt.__init__ text indent).
Proof.
  assert (Hends : endswith (rstrip (YesNoPrompt._prompt (YesNoPrompt.__init__ text indent)))
                    "(y/n):" = true).
  { simpl. destruct (endswith (rstrip text) "(y/n):") eqn:E; simpl; [exact E|].
    rewrite rstrip_append by discriminate.
    change (rstrip "(y/n): ") with "(y/n):". apply endswith_append. }
  split; [exact Hends|].
  unfold YesNoPrompt.__init__ at 1. cbn [YesNoPrompt._prompt]. now rewrite Hends.
Qed.

Section FreeIntegerInputMore.
Import FreeIntegerInput.
Variable self : t.

Lemma list_choose_within choices line :
  Forall (within_bounds self) choices ->
  Forall (within_bounds self) (list_choose self choices line).
Proof.
  intros Hall. unfold list_choose. destruct (int line) as [k|e]; [|exact Hall].
  destruct (fst (__bounds self) <=? k)%Z eqn:E1; [|exact Hall].
  destruct (k <=? snd (__bounds self))%Z eqn:E2; [|exact Hall].
  simpl. destruct (negb _); [|exact Hall].
  apply Forall_app. split; [exact Hall|]. constructor; [|constructor].
  unfold within_bounds. lia.
Qed.

Lemma list_choose_NoDup choices line :
  __unique self = true -> NoDup choices -> NoDup (list_choose self choices line).
Proof.
  intros Hu Hnd. unfold list_choose. destruct (int line) as [k|e]; [|exact Hnd].
  rewrite Hu. simpl.
  destruct ((fst (__bounds self) <=? k)%Z && (k <=? snd (__bounds self))%Z); [|exact Hnd].
  simpl. destruct (bool_decide (k ∈ choices)) eqn:Hin; [exact Hnd|]. simpl.
  apply bool_decide_eq_false_1 in Hin.
  apply NoDup_app. split; [exact Hnd|]. split; [|apply NoDup_singleton].
  intros x Hx Hk. apply list_elem_of_singleton in Hk. now subst.
Qed.

Lemma collected_invariant (P : list Z -> Prop) lines :
  (forall choices line, P choices -> P (list_choose self choices line)) ->
  forall choices l, P choices -> collected self choices lines = Some l -> P l.
Proof.
  intros Hstep. induction lines as [|line rest IH]; intros choices l HP; [discriminate|].
  simpl. destruct (line =? "")%string; [now intros [= <-]|].
  apply IH, Hstep, HP.
Qed.



Lemma index_first (choices : list Z) (k : Z) :
  In k choices ->
  exists i, index choices k = Ok i /\ choices !! i = Some k /\
            forall j, (j < i)%nat -> choices !! j <> Some k.
Proof.
  induction choices as [|y choices IH]; intros Hin; [destruct Hin|].
  simpl. destruct (Z.eqb_spec y k) as [->|Hne].
  - exists 0%nat. split; [reflexivity|]. split; [reflexivity|]. intros j Hj. lia.
  - destruct Hin as [Heq|Hin]; [contradiction|].
    destruct (IH Hin) as (i & -> & Hi & Hfirst).
    exists (S i). split; [reflexivity|]. split; [exact Hi|].
    intros [|j] Hj; simpl; [congruence|]. apply Hfirst. lia.
Qed.

End FreeIntegerInputMore.

(** X19.  Whatever is typed, the list the integer list prompt returns
    holds only integers within the bounds, both included; with [unique]
    no integer occurs in it twice; and when the lower bound is above the
    upper one the list is empty. *)
Theorem FreeIntegerInput_prompt_returns
    (self : FreeIntegerInput.t) (c : console) (l : list Z) :
  fst (FreeIntegerInput.prompt self c) = Ok l ->
  Forall (fun k => (fst (FreeIntegerInput.__bounds self) <= k
                    <= snd (FreeIntegerInput.__bounds self))%Z) l /\
  (FreeIntegerInput.__unique self = true -> NoDup l) /\
  ((snd (FreeIntegerInput.__bounds self) < fst (FreeIntegerInput.__bounds self))%Z ->
   l = []).
Proof.
  unfold FreeIntegerInput.prompt. rewrite loop_collected.
  destruct (collected self [] (stdin c)) as [l'|] eqn:Hc; [|discriminate].
  intros [= ->].
  assert (Hall : Forall (within_bounds self) l).
  { eapply (collected_invariant self (Forall (within_bounds self)));
      [apply list_choose_within|constructor|exact Hc]. }
  split; [exact Hall|]. split.
  - intros Hu. eapply (collected_invariant self NoDup);
      [intros; now apply list_choose_NoDup|constructor|exact Hc].
  - intros Hempty. destruct l as [|k l]; [reflexivity|].
    apply Forall_inv in Hall. unfold within_bounds in Hall. lia.
Qed.

Lemma FreeIntegerInput_prompt_returns_witness :
  Forall (fun k => (1 <= k <= 10)%Z) [4; 9]%Z.
Proof.
  apply (FreeIntegerInput_prompt_returns
           (FreeIntegerInput.__init__ "Rooms" (1, 10)%Z true 0)
           (Console ["4"; "12"; "4"; "x"; "9"; ""; "5"] []) [4; 9]%Z).
  reflexivity.
Defined.




(** X22.  With [unique], a line whose integer is within the bounds but
    already among the choices is not added: the prompt answers with the
    message naming the place of its first occurrence and goes on with the
    choices unchanged; looking that place up never fails. *)
Theorem FreeIntegerInput_repeated_choice
    (self : FreeIntegerInput.t) (choices : list Z) (line : string)
    (rest out : list string) (k : Z) :
  FreeIntegerInput.__unique self = true ->
  int line = Ok k ->
  within_bounds self k ->
  In k choices ->
  exists i,
    choices !! i = Some k /\
    (forall j, (j < i)%nat -> choices !! j <> Some k) /\
    FreeIntegerInput.loop self choices (line :: rest) out
    = FreeIntegerInput.loop self choices rest
        (print (FreeIntegerInput.repeated self k i)
           (echo (FreeIntegerInput.__indent self ++ ">>> ") out)).
Proof.
  intros Hu Hint [Hlo Hhi] Hin.
  destruct (index_first choices k Hin) as (i & Hidx & Hi & Hfirst).
  exists i. split; [exact Hi|]. split; [exact Hfirst|].
  assert (Hne : (String.length line =? 0)%nat = false).
  { destruct line; [discriminate Hint|reflexivity]. }
  cbn [FreeIntegerInput.loop]. rewrite Hne, Hint, Hu.
  replace (k <? fst (FreeIntegerInput.__bounds self))%Z with false by lia.
  replace (k >? snd (FreeIntegerInput.__bounds self))%Z with false by lia.
  rewrite bool_decide_eq_true_2 by now apply list_elem_of_In.
  simpl. now rewrite Hidx.
Qed.

Lemma FreeIntegerInput_repeated_choice_witness :
  exists i,
    [3; 7]%Z !! i = Some 7%Z /\
    (forall j, (j < i)%nat -> [3; 7]%Z !! j <> Some 7%Z) /\
    FreeIntegerInput.loop (FreeIntegerInput.__init__ "Rooms" (1, 10)%Z true 0)
      [3; 7]%Z (" 7" :: [""]) []
    = FreeIntegerInput.loop (FreeIntegerInput.__init__ "Rooms" (1, 10)%Z true 0)
        [3; 7]%Z [""]
        (print (FreeIntegerInput.repeated
                  (FreeIntegerInput.__init__ "Rooms" (1, 10)%Z true 0) 7%Z i)
           (echo (FreeIntegerInput.__indent
                    (FreeIntegerInput.__init__ "Rooms" (1, 10)%Z true 0) ++ ">>> ") [])).
Proof.
  apply (FreeIntegerInput_repeated_choice
           (FreeIntegerInput.__init__ "Rooms" (1, 10)%Z true 0) [3; 7]%Z " 7" [""] [] 7%Z).
  - reflexivity.
  - reflexivity.
  - unfold within_bounds. simpl. lia.
  - simpl. auto.
Defined.
